(** * BEA regions: a shallow embedding of [make_bea_regions.py]

    The development models [build_bea_regions] (and the two module-level
    tables [BEA_MAP] and [TERRITORIES]) of [src/make_bea_regions.py].

    - A GeoDataFrame is a record: the column index, the label of the
      geometry column, the rows (the scalar cells of a row as a finite map
      from column name to cell, its geometry apart) and the declared
      reference system.
    - Python objects live in a store; a variable holds a reference.  The
      function is written in a small state-and-exception monad so that
      rebinding a name ([states = states[...].copy()]) and mutating an object
      in place ([states['bea_region'] = ...]) stay distinct.
    - The geometry kernel (shapely's union, pyproj's transform) is not part of
      the repository: the development is parametric in it. *)

From Stdlib Require Import ZArith String.
From Stdlib Require OrderedTypeEx.
From stdpp Require Import base option list gmap strings sorting pretty.

Local Open Scope string_scope.

(** ** Scalar cells, reference systems, exceptions *)

(** A scalar cell of a frame: missing ([None]/[NaN]), a string, or another
    hashable scalar (an integer). *)
Inductive Cell : Type :=
| NA
| Str (s : string)
| Int (z : Z).

#[global] Instance Cell_eq_dec : EqDecision Cell.
Proof. solve_decision. Defined.

Definition notna (c : Cell) : bool :=
  match c with NA => false | _ => true end.

Definition isna_cell (c : Cell) : bool := negb (notna c).

(** The order pandas' [groupby(sort=True)] puts the group keys in: strings by
    code point (byte-wise on UTF-8), integers by value. *)
Definition cell_leb (a b : Cell) : bool :=
  match a, b with
  | NA, _ => true
  | Int x, Int y => Z.leb x y
  | Int _, Str _ => true
  | Str x, Str y => String.leb x y
  | _, _ => false
  end.

Definition cell_le (a b : Cell) : Prop := Is_true (cell_leb a b).

#[global] Instance cell_le_dec : RelDecision cell_le.
Proof. intros a b. unfold cell_le. apply _. Defined.

Inductive CRS : Type :=
| EPSG (code : Z)
| WKT (definition : string).

#[global] Instance CRS_eq_dec : EqDecision CRS.
Proof. solve_decision. Defined.

(** What a [ValueError] of the pipeline carries. *)
Inductive ValueErrorArg : Type :=
| MissingBEARegion (bad : list Cell)
    (* f"Some states missing BEA region mapping: {bad}" *)
| NaiveGeometries.
    (* to_crs on a frame without a declared reference system *)

Inductive Exn : Type :=
| KeyError (msg : string)
| ValueError (arg : ValueErrorArg)
| AttributeError (geometry_column : string)
    (* a geospatial method on a frame whose active geometry column, of that
       label, is not among its columns *)
| InvalidReference.

(** ** The module-level tables *)

Definition BEA_MAP_items : list (string * string) :=
  [ ("CT","New England"); ("ME","New England"); ("MA","New England");
    ("NH","New England"); ("RI","New England"); ("VT","New England");
    ("DE","Mideast"); ("DC","Mideast"); ("MD","Mideast"); ("NJ","Mideast");
    ("NY","Mideast"); ("PA","Mideast");
    ("IL","Great Lakes"); ("IN","Great Lakes"); ("MI","Great Lakes");
    ("OH","Great Lakes"); ("WI","Great Lakes");
    ("IA","Plains"); ("KS","Plains"); ("MN","Plains"); ("MO","Plains");
    ("NE","Plains"); ("ND","Plains"); ("SD","Plains");
    ("AL","Southeast"); ("AR","Southeast"); ("FL","Southeast");
    ("GA","Southeast"); ("KY","Southeast"); ("LA","Southeast");
    ("MS","Southeast"); ("NC","Southeast"); ("SC","Southeast");
    ("TN","Southeast"); ("VA","Southeast"); ("WV","Southeast");
    ("AZ","Southwest"); ("NM","Southwest"); ("OK","Southwest");
    ("TX","Southwest");
    ("CO","Rocky Mountain"); ("ID","Rocky Mountain"); ("MT","Rocky Mountain");
    ("UT","Rocky Mountain"); ("WY","Rocky Mountain");
    ("AK","Far West"); ("CA","Far West"); ("HI","Far West"); ("NV","Far West");
    ("OR","Far West"); ("WA","Far West") ].

Definition BEA_MAP : gmap string string := list_to_map BEA_MAP_items.

Definition TERRITORIES : gset string :=
  list_to_set ["PR"; "GU"; "VI"; "MP"; "AS"].

Arguments BEA_MAP : simpl never.
Arguments TERRITORIES : simpl never.

(** ** Series operations (pandas), on a column taken out of a frame *)

(** [Series.isin(values)] *)
Definition isin (values : gset string) (s : list Cell) : list bool :=
  map (λ c, match c with Str k => bool_decide (k ∈ values) | _ => false end) s.

(** [~mask] *)
Definition invert (mask : list bool) : list bool := map negb mask.

(** [Series.map(dict)]: a key that is not in the dict gives a missing value. *)
Definition map_cell (d : gmap string string) (c : Cell) : Cell :=
  match c with
  | Str k => match d !! k with Some v => Str v | None => NA end
  | _ => NA
  end.

Definition Series_map (d : gmap string string) (s : list Cell) : list Cell :=
  map (map_cell d) s.

(** [Series.isna()] and [.sum()] of a boolean series *)
Definition isna (s : list Cell) : list bool := map isna_cell s.

Definition Series_sum (mask : list bool) : nat :=
  length (List.filter (λ b : bool, b) mask).

(** Selection by a boolean mask, position by position. *)
Fixpoint mask_select {A : Type} (xs : list A) (mask : list bool) : list A :=
  match xs, mask with
  | x :: xs', b :: mask' =>
      if b then x :: mask_select xs' mask' else mask_select xs' mask'
  | _, _ => []
  end.

(** The sorted distinct non-missing keys of [groupby(sort=True, dropna=True)]. *)
Definition group_keys (labels : list Cell) : list Cell :=
  merge_sort cell_le (remove_dups (List.filter notna labels)).

(** ** Frames *)

Section Frames.

(** The geometry kernel: a type of geometries, the union of a list of
    geometries (shapely's [union_all]) and the coordinate transform between
    two reference systems (pyproj). *)
Variable Geom : Type.
Variable union_all : list Geom → Geom.
Variable transform : CRS → CRS → Geom → Geom.

Record Row : Type := mkRow {
  cells : gmap string Cell;
  geometry : Geom
}.

(** [columns] is the column index, the geometry column included;
    [geometry_name] is the label of the active geometry column ('geometry'
    for a layer read from a file, but any label can be); [crs] is the
    declared reference system, if any.  The labels of a frame are meant to be
    pairwise distinct, the geometry column to be one of them, and the label
    'geometry' to be used for a geometry column only: see [well_formed]. *)
Record GeoDataFrame : Type := mkFrame {
  columns : list string;
  geometry_name : string;
  rows : list Row;
  crs : option CRS
}.

Definition row_get (c : string) (r : Row) : Cell := default NA (cells r !! c).

Definition row_set (c : string) (v : Cell) (r : Row) : Row :=
  {| cells := <[c := v]> (cells r); geometry := geometry r |}.

(** [df[c]] *)
Definition getitem_column (c : string) (df : GeoDataFrame) : list Cell :=
  map (row_get c) (rows df).

(** [df[mask]]: a new frame with the rows the mask keeps. *)
Definition getitem_mask (mask : list bool) (df : GeoDataFrame) : GeoDataFrame :=
  {| columns := columns df; geometry_name := geometry_name df;
     rows := mask_select (rows df) mask; crs := crs df |}.

(** [df.copy()] *)
Definition copy (df : GeoDataFrame) : GeoDataFrame :=
  {| columns := columns df; geometry_name := geometry_name df;
     rows := rows df; crs := crs df |}.

(** [df[c] = series], the series carrying the frame's own index: the values
    are stored position by position (a position the series does not cover
    gets a missing value); a new column is appended to the column index. *)
Fixpoint assign_cells (c : string) (rs : list Row) (vs : list Cell) : list Row :=
  match rs with
  | [] => []
  | r :: rs' =>
      match vs with
      | v :: vs' => row_set c v r :: assign_cells c rs' vs'
      | [] => row_set c NA r :: assign_cells c rs' []
      end
  end.

Definition setitem_column (c : string) (vs : list Cell) (df : GeoDataFrame)
  : GeoDataFrame :=
  {| columns := if bool_decide (c ∈ columns df) then columns df
                else columns df ++ [c];
     geometry_name := geometry_name df;
     rows := assign_cells c (rows df) vs;
     crs := crs df |}.

(** [df.loc[mask, c].tolist()] *)
Definition loc_mask_column (mask : list bool) (c : string) (df : GeoDataFrame)
  : list Cell :=
  map (row_get c) (mask_select (rows df) mask).

(** *** dissolve *)

Definition members (by_ : string) (k : Cell) (rs : list Row) : list Row :=
  List.filter (λ r, bool_decide (row_get by_ r = k)) rs.

(** [aggfunc='first']: the first non-missing value of the column in the
    group. *)
Definition agg_first (c : string) (rs : list Row) : Cell :=
  default NA (head (List.filter notna (map (row_get c) rs))).

(** The columns [aggfunc] is applied to: those other than the key and the
    geometry column.  The label 'geometry' is taken to be that of a geometry
    column only ([well_formed]), so it is never a data column. *)
Definition data_columns (by_ gname : string) (cols : list string) : list string :=
  List.filter
    (λ c, negb (bool_decide (c = by_)) && negb (bool_decide (c = gname))
          && negb (bool_decide (c = "geometry")))
    cols.

Definition dissolve_row (by_ : string) (dcols : list string) (rs : list Row)
    (k : Cell) : Row :=
  let ms := members by_ k rs in
  {| cells := <[by_ := k]> (list_to_map (map (λ c, (c, agg_first c ms)) dcols));
     geometry := union_all (map geometry ms) |}.

(** [df.dissolve(by=by_, as_index=False, aggfunc='first')]: one row per
    group key, in sorted key order; the geometry is the union of the
    members' geometries; the geometry column keeps its label, after the key
    and before the data columns; the reference system is kept.  It needs the
    active geometry column ([self.geometry]) and the key. *)
Definition dissolve (by_ : string) (df : GeoDataFrame) : Exn + GeoDataFrame :=
  if bool_decide (geometry_name df ∈ columns df) then
    if bool_decide (by_ ∈ columns df) then
      let dcols := data_columns by_ (geometry_name df) (columns df) in
      inr {| columns := by_ :: geometry_name df :: dcols;
             geometry_name := geometry_name df;
             rows := map (dissolve_row by_ dcols (rows df))
                         (group_keys (getitem_column by_ df));
             crs := crs df |}
    else inl (KeyError by_)
  else inl (AttributeError (geometry_name df)).

(** [df.to_crs(target)] *)
Definition to_crs (target : CRS) (df : GeoDataFrame) : Exn + GeoDataFrame :=
  match crs df with
  | None => inl (ValueError NaiveGeometries)
  | Some src =>
      inr {| columns := columns df;
             geometry_name := geometry_name df;
             rows := map (λ r, {| cells := cells r;
                                  geometry := transform src target (geometry r) |})
                         (rows df);
             crs := Some target |}
  end.

(** The message of the KeyError for labels that are not in the index:
    ['a', 'b'] not in index. *)
Definition not_in_index (missing : list string) : string :=
  "[" ++ String.concat ", " (map (λ c, "'" ++ c ++ "'") missing)
      ++ "] not in index".

(** [df[[c1; ...; cn]]]: every label asked for must be a column.  (When it
    is not among the labels asked for, the geometry of a row is no longer a
    column of the result.) *)
Definition getitem_columns (cs : list string) (df : GeoDataFrame)
  : Exn + GeoDataFrame :=
  match List.filter (λ c, negb (bool_decide (c ∈ columns df))) cs with
  | [] =>
      inr {| columns := cs;
             geometry_name := geometry_name df;
             rows := map (λ r, {| cells := filter (λ kv, kv.1 ∈ cs) (cells r);
                                  geometry := geometry r |})
                         (rows df);
             crs := crs df |}
  | missing => inl (KeyError (not_in_index missing))
  end.

(** ** The object store and the monad of Python computations *)

Definition loc : Type := positive.

Definition Py (A : Type) : Type :=
  gmap loc GeoDataFrame → (Exn + A) * gmap loc GeoDataFrame.

Definition ret {A : Type} (a : A) : Py A := λ h, (inr a, h).

Definition raise {A : Type} (e : Exn) : Py A := λ h, (inl e, h).

Definition bind {A B : Type} (m : Py A) (k : A → Py B) : Py B :=
  λ h, match m h with
       | (inr a, h') => k a h'
       | (inl e, h') => (inl e, h')
       end.

(** A pure library call that may raise. *)
Definition lift {A : Type} (r : Exn + A) : Py A :=
  match r with inr a => ret a | inl e => raise e end.

(** A new object, at an address the store does not use. *)
Definition new (df : GeoDataFrame) : Py loc :=
  λ h, let l := fresh (dom h) in (inr l, <[l := df]> h).

Definition deref (l : loc) : Py GeoDataFrame :=
  λ h, match h !! l with
       | Some df => (inr df, h)
       | None => (inl InvalidReference, h)
       end.

(** In-place mutation of the object at [l]. *)
Definition mutate (l : loc) (f : GeoDataFrame → GeoDataFrame) : Py unit :=
  λ h, match h !! l with
       | Some df => (inr tt, <[l := f df]> h)
       | None => (inl InvalidReference, h)
       end.

Notation "x <- m ;; k" := (bind m (λ x, k))
  (at level 100, m at next level, right associativity).
Notation "m ;;; k" := (bind m (λ _, k))
  (at level 100, right associativity).

(** ** build_bea_regions *)

Definition expected_STUSPS : string :=
  "Expected 'STUSPS' column in states layer (two-letter postal codes).".

Definition build_bea_regions (states : loc) : Py loc :=
  df <- deref states ;;
  if negb (bool_decide ("STUSPS" ∈ columns df)) then
    raise (KeyError expected_STUSPS)
  else
    (* states = states[~states['STUSPS'].isin(TERRITORIES)].copy() *)
    selected <- new (getitem_mask
                       (invert (isin TERRITORIES (getitem_column "STUSPS" df)))
                       df) ;;
    sel <- deref selected ;;
    states <- new (copy sel) ;;
    (* states['bea_region'] = states['STUSPS'].map(BEA_MAP) *)
    st <- deref states ;;
    mutate states
      (setitem_column "bea_region"
         (Series_map BEA_MAP (getitem_column "STUSPS" st))) ;;;
    (* missing = states['bea_region'].isna().sum() *)
    st <- deref states ;;
    let missing := Series_sum (isna (getitem_column "bea_region" st)) in
    if negb (Nat.eqb missing 0) then
      let bad := loc_mask_column (isna (getitem_column "bea_region" st))
                                 "STUSPS" st in
      raise (ValueError (MissingBEARegion bad))
    else
      (* bea = states.dissolve(by='bea_region', as_index=False, aggfunc='first') *)
      dissolved <- lift (dissolve "bea_region" st) ;;
      bea <- new dissolved ;;
      (* bea = bea.to_crs(4326) *)
      b <- deref bea ;;
      projected <- lift (to_crs (EPSG 4326) b) ;;
      bea <- new projected ;;
      (* return bea[['bea_region','geometry']] *)
      b <- deref bea ;;
      result <- lift (getitem_columns ["bea_region"; "geometry"] b) ;;
      new result.

(** The caller's view: call the function on the object at [states] and look
    at the object it returns. *)
Definition call_build_bea_regions (h : gmap loc GeoDataFrame) (states : loc)
  : Exn + GeoDataFrame :=
  match build_bea_regions states h with
  | (inr l, h') =>
      match h' !! l with
      | Some out => inr out
      | None => inl InvalidReference
      end
  | (inl e, _) => inl e
  end.

End Frames.

Arguments mkRow {Geom} _ _.
Arguments cells {Geom} _.
Arguments geometry {Geom} _.
Arguments mkFrame {Geom} _ _ _ _.
Arguments columns {Geom} _.
Arguments geometry_name {Geom} _.
Arguments rows {Geom} _.
Arguments crs {Geom} _.
Arguments row_get {Geom} _ _.
Arguments row_set {Geom} _ _ _.
Arguments getitem_column {Geom} _ _.
Arguments getitem_mask {Geom} _ _.
Arguments copy {Geom} _.
Arguments assign_cells {Geom} _ _ _.
Arguments setitem_column {Geom} _ _ _.
Arguments loc_mask_column {Geom} _ _ _.
Arguments members {Geom} _ _ _.
Arguments agg_first {Geom} _ _.
Arguments dissolve_row {Geom} _ _ _ _ _.
Arguments dissolve {Geom} _ _ _.
Arguments to_crs {Geom} _ _ _.
Arguments getitem_columns {Geom} _ _.
Arguments build_bea_regions {Geom} _ _ _ _.
Arguments call_build_bea_regions {Geom} _ _ _ _.

(** ** The pipeline as a function of the input frame

    The names below are the expressions of lines 56-57 of the source; the
    theorems are stated with them. *)

Section Vocabulary.

Context {Geom : Type}.
Variable union_all : list Geom → Geom.
Variable transform : CRS → CRS → Geom → Geom.

Implicit Types (df out : GeoDataFrame Geom) (r : Row Geom).

(** [states[~states['STUSPS'].isin(TERRITORIES)]] *)
Definition non_excluded df : GeoDataFrame Geom :=
  getitem_mask (invert (isin TERRITORIES (getitem_column "STUSPS" df))) df.

(** [states['STUSPS'].map(BEA_MAP)], on the filtered frame *)
Definition bea_region_labels df : list Cell :=
  Series_map BEA_MAP (getitem_column "STUSPS" (copy (non_excluded df))).

(** The local frame [states] after line 57. *)
Definition classified df : GeoDataFrame Geom :=
  setitem_column "bea_region" (bea_region_labels df) (copy (non_excluded df)).

(** The result of the call as a function of the frame passed in; the store
    is gone.  [build_bea_regions_run] below relates it to the stateful
    function. *)
Definition regions_of df : Exn + GeoDataFrame Geom :=
  if bool_decide ("STUSPS" ∈ columns df) then
    let st := classified df in
    let mask := isna (getitem_column "bea_region" st) in
    if Nat.eqb (Series_sum mask) 0 then
      match dissolve union_all "bea_region" st with
      | inl e => inl e
      | inr d =>
          match to_crs transform (EPSG 4326) d with
          | inl e => inl e
          | inr p => getitem_columns ["bea_region"; "geometry"] p
          end
      end
    else inl (ValueError (MissingBEARegion (loc_mask_column mask "STUSPS" st)))
  else inl (KeyError expected_STUSPS).

(** What the data model takes for granted of a frame: the column labels are
    pairwise distinct, the active geometry column is one of the columns and
    is neither the identifier column nor the label column, and no other
    column is labelled 'geometry'. *)
Definition well_formed df : Prop :=
  NoDup (columns df)
  ∧ geometry_name df ∈ columns df
  ∧ geometry_name df ≠ "STUSPS"
  ∧ geometry_name df ≠ "bea_region"
  ∧ ("geometry" ∈ columns df → geometry_name df = "geometry").

(** *** The pipeline in normal form *)

(** Whether line 56 drops the row. *)
Definition excluded r : bool :=
  match row_get "STUSPS" r with
  | Str k => bool_decide (k ∈ TERRITORIES)
  | _ => false
  end.

(** The label line 57 gives the row. *)
Definition label_of r : Cell := map_cell BEA_MAP (row_get "STUSPS" r).

(** The identifiers line 60 reports. *)
Definition unmapped_ids df : list Cell :=
  List.filter (λ c, isna_cell (map_cell BEA_MAP c))
              (getitem_column "STUSPS" (non_excluded df)).

(** The members of the group [k] among the rows [rs] of the input. *)
Definition group_of (k : Cell) (rs : list (Row Geom)) : list (Row Geom) :=
  List.filter (λ r, bool_decide (label_of r = k)) rs.

(** The KeyError of line 65, when 'geometry' is not a column of [bea]. *)
Definition geometry_not_in_index : string := "['geometry'] not in index".

Definition region_row (src : CRS) (rs : list (Row Geom)) (k : Cell) : Row Geom :=
  {| cells := {[ "bea_region" := k ]};
     geometry := transform src (EPSG 4326)
                   (union_all (map geometry (group_of k rs))) |}.

End Vocabulary.

(** ** The script around the pipeline: [download_states] and [main]

    What the script does to the outside (the lines it prints, the request it
    sends, the files it reads and writes) is kept as a trace of events.  What
    the outside answers is a parameter: a [World] gives the response to a
    request, the archive in a byte string, its extraction, the frame in a
    file, and whether a write succeeds.  The exceptions raised inside
    requests, zipfile and geopandas' readers and writers are values of a type
    left open. *)

(** [str.endswith] *)
Definition endswith (s suffix : string) : bool :=
  bool_decide (String.list_ascii_of_string suffix
               `suffix_of` String.list_ascii_of_string s).

(** The parsed command line: [ap.parse_args()]. *)
Record Namespace : Type := mkNamespace {
  output : string;
  year : Z;
  scale : string
}.

Section Script.

Variable Geom : Type.
Variable union_all : list Geom → Geom.
Variable transform : CRS → CRS → Geom → Geom.

Variable Bytes : Type.     (* the body of a response *)
Variable Archive : Type.   (* an open zip archive *)
Variable Dir : Type.       (* a directory on disk *)
Variable LibError : Type.  (* an exception raised by a library call *)

Record Response : Type := mkResponse {
  status_code : Z;
  content : Bytes
}.

Record World : Type := mkWorld {
  (* requests.get(url, timeout=t) *)
  requests_get : string → Z → LibError + Response;
  (* zipfile.ZipFile(io.BytesIO(content)) *)
  ZipFile : Bytes → LibError + Archive;
  (* zf.namelist(), in archive order *)
  namelist : Archive → list string;
  (* tempfile.TemporaryDirectory() and zf.extractall(td) *)
  extractall : Archive → LibError + Dir;
  (* gpd.read_file(Path(td) / name) *)
  read_file : Dir → string → LibError + GeoDataFrame Geom;
  (* frame.to_file(path, driver=driver) *)
  to_file : GeoDataFrame Geom → string → string → option LibError
}.

Inductive Event : Type :=
| Stderr (line : string)
| HttpGet (url : string) (timeout : Z)
| Extract
| ReadFile (member : string)
| ToFile (path driver : string) (frame : GeoDataFrame Geom).

Inductive ScriptExn : Type :=
| StopIteration
| HTTPError (status : Z)
| LibraryError (e : LibError)
| PipelineError (e : Exn).

(** A computation of the script: the events so far, and an exception or a
    value. *)
Definition Script (A : Type) : Type := list Event * (ScriptExn + A).

Definition sret {A : Type} (a : A) : Script A := ([], inr a).

Definition sraise {A : Type} (e : ScriptExn) : Script A := ([], inl e).

Definition sbind {A B : Type} (m : Script A) (k : A → Script B) : Script B :=
  match m with
  | (t, inr a) => let '(t', r) := k a in ((t ++ t')%list, r)
  | (t, inl e) => (t, inl e)
  end.

Definition emit (ev : Event) : Script unit := ([ev], inr tt).

(** A call to the outside: the event, and what the world answers. *)
Definition perform {A : Type} (ev : Event) (answer : LibError + A) : Script A :=
  ([ev], match answer with inl e => inl (LibraryError e) | inr a => inr a end).

Definition library {A : Type} (answer : LibError + A) : Script A :=
  ([], match answer with inl e => inl (LibraryError e) | inr a => inr a end).

(** [next(iterator)] on the elements a generator yields. *)
Definition next {A : Type} (yielded : list A) : Script A :=
  match yielded with
  | [] => sraise StopIteration
  | a :: _ => sret a
  end.

(** [resp.raise_for_status()] *)
Definition raise_for_status (resp : Response) : Script unit :=
  if (400 <=? status_code resp)%Z && (status_code resp <? 600)%Z
  then sraise (HTTPError (status_code resp))
  else sret tt.

Notation "x <- m ;; k" := (sbind m (λ x, k))
  (at level 100, m at next level, right associativity).
Notation "m ;;; k" := (sbind m (λ _, k))
  (at level 100, right associativity).

(** The two f-strings of lines 37-38. *)
Definition zip_url (year : Z) (scale : string) : string :=
  let base := "https://www2.census.gov/geo/tiger/GENZ" ++ pretty year ++ "/shp" in
  base ++ "/cb_" ++ pretty year ++ "_us_state_" ++ scale ++ ".zip".

Definition download_states (w : World) (year : Z) (scale : string)
  : Script (GeoDataFrame Geom) :=
  let zip_url := zip_url year scale in
  emit (Stderr ("Downloading " ++ zip_url ++ " ...")) ;;;
  resp <- perform (HttpGet zip_url 60) (requests_get w zip_url 60) ;;
  raise_for_status resp ;;;
  zf <- library (ZipFile w (content resp)) ;;
  shp_name <- next (List.filter (λ n, endswith n ".shp") (namelist w zf)) ;;
  td <- perform Extract (extractall w zf) ;;
  gdf <- perform (ReadFile shp_name) (read_file w td shp_name) ;;
  sret gdf.

(** [main], from the parsed arguments on.  The frame downloaded is the one
    object of the store [build_bea_regions] is called in. *)
Definition main (w : World) (args : Namespace) : Script unit :=
  states <- download_states w (year args) (scale args) ;;
  bea <- match call_build_bea_regions union_all transform
                 {[ 1%positive := states ]} 1%positive with
         | inl e => sraise (PipelineError e)
         | inr bea => sret bea
         end ;;
  perform (ToFile (output args) "GeoJSON" bea)
          (match to_file w bea (output args) "GeoJSON" with
           | Some e => inl e
           | None => inr tt
           end) ;;;
  emit (Stderr ("Wrote " ++ output args ++ " with "
                ++ pretty (length (rows bea)) ++ " features.")).

End Script.

Arguments mkResponse {Bytes} _ _.
Arguments status_code {Bytes} _.
Arguments content {Bytes} _.
Arguments mkWorld {Geom Bytes Archive Dir LibError} _ _ _ _ _ _.
Arguments requests_get {Geom Bytes Archive Dir LibError} _ _ _.
Arguments ZipFile {Geom Bytes Archive Dir LibError} _ _.
Arguments namelist {Geom Bytes Archive Dir LibError} _ _.
Arguments extractall {Geom Bytes Archive Dir LibError} _ _.
Arguments read_file {Geom Bytes Archive Dir LibError} _ _ _.
Arguments to_file {Geom Bytes Archive Dir LibError} _ _ _ _.
Arguments Stderr {Geom} _.
Arguments HttpGet {Geom} _ _.
Arguments Extract {Geom}.
Arguments ReadFile {Geom} _.
Arguments ToFile {Geom} _ _ _.
Arguments StopIteration {LibError}.
Arguments HTTPError {LibError} _.
Arguments LibraryError {LibError} _.
Arguments PipelineError {LibError} _.
Arguments download_states {Geom Bytes Archive Dir LibError} _ _ _.
Arguments main {Geom} _ _ {Bytes Archive Dir LibError} _ _.

(** ** A concrete geometry kernel, and inputs to run the pipeline on

    A geometry is the list of the unit squares of a grid it covers; the union
    is the union of the footprints; a change of reference system rescales the
    grid. *)

Module Grid.

Definition Geom : Type := list (Z * Z).

Definition union_all (gs : list Geom) : Geom := foldr list_union [] gs.


Definition transform (src dst : CRS) (g : Geom) : Geom :=
  if decide (src = dst) then g else map (λ p, (2 * p.1, 2 * p.2)%Z) g.

Definition feature (code : string) (g : Geom) : Row Geom :=
  mkRow {[ "STUSPS" := Str code; "NAME" := Str ("State of " ++ code) ]} g.

(** A layer as the Census publishes it: NAD83 (EPSG:4269). *)
Definition layer (rs : list (Row Geom)) : GeoDataFrame Geom :=
  mkFrame ["STUSPS"; "NAME"; "geometry"] "geometry" rs (Some (EPSG 4269)).

(** The store of a caller that holds one frame, at address 1. *)
Definition store (df : GeoDataFrame Geom) : gmap loc (GeoDataFrame Geom) :=
  {[ 1%positive := df ]}.

Definition call (df : GeoDataFrame Geom) : Exn + GeoDataFrame Geom :=
  call_build_bea_regions union_all transform (store df) 1%positive.

Definition northeast : GeoDataFrame Geom :=
  layer [ feature "NY" [(1, 1)%Z]; feature "PR" [(9, 9)%Z];
          feature "CT" [(2, 1)%Z]; feature "NJ" [(1, 0)%Z] ].

Definition with_unmapped : GeoDataFrame Geom :=
  layer [ feature "NY" [(1, 1)%Z]; feature "XX" [(5, 5)%Z];
          feature "GU" [(9, 9)%Z]; feature "YY" [(6, 6)%Z] ].



Definition connecticut : GeoDataFrame Geom :=
  layer [ feature "CT" [(2, 1)%Z] ].

Definition region (label : string) (g : Geom) : Row Geom :=
  mkRow {[ "bea_region" := Str label ]} g.

Definition regions (rs : list (Row Geom)) : GeoDataFrame Geom :=
  mkFrame ["bea_region"; "geometry"] "geometry" rs (Some (EPSG 4326)).

Definition northeast_regions : GeoDataFrame Geom :=
  regions [ region "Mideast" [(2, 2)%Z; (2, 0)%Z];
            region "New England" [(4, 2)%Z] ].


Definition territories_only : GeoDataFrame Geom :=
  layer [ feature "PR" [(9, 9)%Z]; feature "GU" [(8, 8)%Z] ].

(** [GeoDataFrame()]: no rows, no columns, no reference system. *)
Definition no_columns : GeoDataFrame Geom := mkFrame [] "geometry" [] None.

(** No rows and no declared reference system, the columns present. *)
Definition naive_empty : GeoDataFrame Geom :=
  mkFrame ["STUSPS"; "geometry"] "geometry" [] None.

(** A layer whose identifier column has another name. *)
Definition no_identifier : GeoDataFrame Geom :=
  mkFrame ["NAME"; "geometry"] "geometry"
          [ mkRow {[ "NAME" := Str "New York" ]} [(1, 1)%Z] ]
          (Some (EPSG 4269)).

End Grid.

(** More inputs, on the same kernel. *)

Module Samples.

(** The rows of [Grid.northeast] in another order. *)
Definition northeast_shuffled : GeoDataFrame Grid.Geom :=
  Grid.layer [ Grid.feature "NJ" [(1, 0)%Z]; Grid.feature "CT" [(2, 1)%Z];
               Grid.feature "PR" [(9, 9)%Z]; Grid.feature "NY" [(1, 1)%Z] ].

(** The rows of [Grid.northeast] with other attributes: no name, a stale
    'bea_region' cell. *)
Definition bare (code : string) (g : Grid.Geom) : Row Grid.Geom :=
  mkRow {[ "STUSPS" := Str code; "bea_region" := Str "stale" ]} g.

Definition northeast_bare : GeoDataFrame Grid.Geom :=
  mkFrame ["bea_region"; "STUSPS"; "geometry"] "geometry"
          [ bare "NY" [(1, 1)%Z]; bare "PR" [(9, 9)%Z];
            bare "CT" [(2, 1)%Z]; bare "NJ" [(1, 0)%Z] ]
          (Some (EPSG 4269)).

(** A row whose identifier is missing. *)
Definition anonymous (g : Grid.Geom) : Row Grid.Geom :=
  mkRow {[ "NAME" := Str "Unnamed" ]} g.

Definition with_anonymous : GeoDataFrame Grid.Geom :=
  Grid.layer [ Grid.feature "NY" [(1, 1)%Z]; anonymous [(3, 3)%Z] ].

(** Layers whose geometry column is labelled 'geom': one without rows, one
    with a row. *)
Definition empty_geom : GeoDataFrame Grid.Geom :=
  mkFrame ["STUSPS"; "geom"] "geom" [] (Some (EPSG 4269)).

Definition new_york_geom : GeoDataFrame Grid.Geom :=
  mkFrame ["STUSPS"; "NAME"; "geom"] "geom" [ Grid.feature "NY" [(1, 1)%Z] ]
          (Some (EPSG 4269)).

(** Unmapped identifiers and no declared reference system. *)
Definition unmapped_and_naive : GeoDataFrame Grid.Geom :=
  mkFrame ["STUSPS"; "geometry"] "geometry" [ Grid.feature "XX" [(5, 5)%Z] ]
          None.

(** A world in which the Census server has the 2022 layer at scale 20m, and
    answers 404 to any other request. *)
Definition census_archive : list (string * string) :=
  [ ("cb_2022_us_state_20m.shp.ea.iso.xml", "<xml/>");
    ("cb_2022_us_state_20m.shp.iso.xml", "<xml/>");
    ("cb_2022_us_state_20m.shp", "shapes");
    ("cb_2022_us_state_20m.shx", "index");
    ("cb_2022_us_state_20m.dbf", "attributes");
    ("cb_2022_us_state_20m.prj", "NAD83");
    ("cb_2022_us_state_20m.cpg", "UTF-8") ].

Definition census_get (url : string) (timeout : Z) : string + Response string :=
  if String.eqb url
       "https://www2.census.gov/geo/tiger/GENZ2022/shp/cb_2022_us_state_20m.zip"
  then inr (mkResponse 200 "PK:states")
  else inr (mkResponse 404 "Not Found").

Definition census_read (td : list (string * string)) (name : string)
  : string + GeoDataFrame Grid.Geom :=
  if bool_decide (name ∈ map fst td) && endswith name ".shp"
  then inr Grid.northeast
  else inl "DataSourceError".

Definition census
  : World Grid.Geom string (list (string * string)) (list (string * string)) string :=
  mkWorld census_get
          (λ body, if String.eqb body "PK:states" then inr census_archive
                   else inl "BadZipFile")
          (map fst)
          (λ zf, inr zf)
          census_read
          (λ frame path driver, None).

(** The same server, handing out an archive without a shapefile. *)
Definition census_no_shapefile
  : World Grid.Geom string (list (string * string)) (list (string * string)) string :=
  mkWorld census_get
          (λ body, inr [ ("README.txt", "see www.census.gov");
                         ("cb_2022_us_state_20m.shp.iso.xml", "<xml/>") ])
          (map fst)
          (λ zf, inr zf)
          census_read
          (λ frame path driver, None).

(** The command line without options, and one asking for a year the server
    does not have. *)
Definition default_args : Namespace :=
  mkNamespace "bea_regions_wgs84.geojson" 2022 "20m".

Definition args_1999 : Namespace :=
  mkNamespace "out.geojson" 1999 "5m".

End Samples.

(** ** Group keys *)

Lemma filter_notna_id (l : list Cell) : NA ∉ l → List.filter notna l = l.
Proof.
  induction l as [|c l IH]; [done|]. intros Hna.
  apply not_elem_of_cons in Hna as [Hc Hl]. cbn [List.filter].
  destruct c; [done| |]; cbn [notna]; by rewrite IH.
Qed.

Lemma group_keys_NoDup (l : list Cell) : NoDup (group_keys l).
Proof.
  unfold group_keys. rewrite merge_sort_Permutation. apply NoDup_remove_dups.
Qed.

Lemma elem_of_group_keys (l : list Cell) (k : Cell) :
  k ∈ group_keys l ↔ k ∈ l ∧ k ≠ NA.
Proof.
  unfold group_keys. rewrite merge_sort_Permutation, elem_of_remove_dups.
  rewrite list_elem_of_In, filter_In, <- list_elem_of_In.
  destruct k; cbn [notna]; intuition congruence.
Qed.

Lemma group_keys_length (l : list Cell) :
  NA ∉ l → length (group_keys l) = length (remove_dups l).
Proof.
  intros Hna. unfold group_keys.
  by rewrite merge_sort_Permutation, filter_notna_id.
Qed.

(** ** The stateful function and the pipeline *)

Section Pipeline.

Context {Geom : Type}.
Variable union_all : list Geom → Geom.
Variable transform : CRS → CRS → Geom → Geom.

Implicit Types (df out : GeoDataFrame Geom) (r : Row Geom).
Implicit Types (h : gmap loc (GeoDataFrame Geom)) (x l : loc).

(** *** Symbolic execution of the monad *)

Lemma bind_deref {B} h l df (k : GeoDataFrame Geom → Py Geom B) :
  h !! l = Some df → bind Geom (deref Geom l) k h = k df h.
Proof. intros E. unfold bind, deref. by rewrite E. Qed.

Lemma bind_new {B} h df (k : loc → Py Geom B) :
  bind Geom (new Geom df) k h
  = k (fresh (dom h)) (<[fresh (dom h) := df]> h).
Proof. reflexivity. Qed.

Lemma bind_mutate {B} h l df f (k : unit → Py Geom B) :
  h !! l = Some df →
  bind Geom (mutate Geom l f) k h = k tt (<[l := f df]> h).
Proof. intros E. unfold bind, mutate. by rewrite E. Qed.

Lemma new_extends h df : h ⊆ <[fresh (dom h) := df]> h.
Proof.
  apply insert_subseteq, not_elem_of_dom, is_fresh.
Qed.

Lemma build_bea_regions_run h x df :
  h !! x = Some df →
  ∃ res h',
    build_bea_regions union_all transform x h = (res, h')
    ∧ h ⊆ h'
    ∧ match regions_of union_all transform df with
      | inl e => res = inl e
      | inr out => ∃ l, res = inr l ∧ h' !! l = Some out
      end.
Proof.
  intros Hx. unfold build_bea_regions, regions_of.
  rewrite (bind_deref _ _ _ _ Hx).
  destruct (bool_decide ("STUSPS" ∈ columns df)); cbv [negb].
  2: { by exists (inl (KeyError expected_STUSPS)), h. }
  rewrite bind_new. fold (non_excluded df).
  set (h1 := <[fresh (dom h) := non_excluded df]> h).
  assert (h ⊆ h1) as H01 by apply new_extends.
  rewrite (bind_deref h1 _ (non_excluded df)); [|apply lookup_insert_eq].
  rewrite bind_new.
  set (l2 := fresh (dom h1)).
  rewrite (bind_deref _ l2 (copy (non_excluded df))); [|apply lookup_insert_eq].
  rewrite (bind_mutate _ l2 (copy (non_excluded df))); [|apply lookup_insert_eq].
  rewrite insert_insert_eq. fold (bea_region_labels df). fold (classified df).
  set (h2 := <[l2 := classified df]> h1).
  assert (h ⊆ h2) as H02 by (etrans; [exact H01|apply new_extends]).
  assert (h2 !! l2 = Some (classified df)) as H2 by apply lookup_insert_eq.
  clearbody h2 l2. clear H01 h1.
  rewrite (bind_deref h2 l2 (classified df) _ H2).
  destruct (Nat.eqb _ 0); cbv [negb].
  2: { eexists _, h2. split; [reflexivity|]. by split. }
  destruct (dissolve union_all "bea_region" (classified df)) as [e|d].
  { by exists (inl e), h2. }
  unfold lift at 1. unfold bind at 1, ret at 1. rewrite bind_new.
  set (l3 := fresh (dom h2)). set (h3 := <[l3 := d]> h2).
  assert (h ⊆ h3) as H03 by (etrans; [exact H02|apply new_extends]).
  rewrite (bind_deref h3 l3 d); [|apply lookup_insert_eq].
  clearbody h3 l3. clear H02 H2 h2.
  destruct (to_crs transform (EPSG 4326) d) as [e|p].
  { by exists (inl e), h3. }
  unfold lift at 1. unfold bind at 1, ret at 1. rewrite bind_new.
  set (l4 := fresh (dom h3)). set (h4 := <[l4 := p]> h3).
  assert (h ⊆ h4) as H04 by (etrans; [exact H03|apply new_extends]).
  rewrite (bind_deref h4 l4 p); [|apply lookup_insert_eq].
  clearbody h4 l4. clear H03 h3.
  destruct (getitem_columns ["bea_region"; "geometry"] p) as [e|out].
  { by exists (inl e), h4. }
  unfold lift, bind, ret, new.
  eexists _, _. split; [reflexivity|]. split.
  - etrans; [exact H04|apply new_extends].
  - eexists. split; [reflexivity|apply lookup_insert_eq].
Qed.

Lemma call_build_bea_regions_eq h x df :
  h !! x = Some df →
  call_build_bea_regions union_all transform h x = regions_of union_all transform df.
Proof.
  intros Hx.
  destruct (build_bea_regions_run h x df Hx) as (res & h' & E & _ & H).
  unfold call_build_bea_regions. rewrite E.
  destruct (regions_of union_all transform df) as [e|out].
  - by subst res.
  - destruct H as (l & -> & ->). reflexivity.
Qed.

Lemma mask_select_map {A B} (f : A → bool) (g : A → B) (xs : list A) :
  mask_select (map g xs) (map f xs) = map g (List.filter f xs).
Proof.
  induction xs as [|a xs IH]; [done|]. cbn [map mask_select List.filter].
  destruct (f a); cbn [map]; by rewrite IH.
Qed.

Lemma mask_select_filter {A} (f : A → bool) (xs : list A) :
  mask_select xs (map f xs) = List.filter f xs.
Proof.
  rewrite <- (map_id xs) at 1. rewrite mask_select_map. apply map_id.
Qed.

Lemma filter_map_comm {A B} (f : B → bool) (g : A → B) (xs : list A) :
  List.filter f (map g xs) = map g (List.filter (λ a, f (g a)) xs).
Proof.
  induction xs as [|a xs IH]; [done|]. cbn [map List.filter].
  destruct (f (g a)); cbn [map]; by rewrite IH.
Qed.

Lemma assign_cells_map c (f : Row Geom → Cell) (rs : list (Row Geom)) :
  assign_cells c rs (map f rs) = map (λ r, row_set c (f r) r) rs.
Proof.
  induction rs as [|r rs IH]; [done|]. cbn [map assign_cells]. by rewrite IH.
Qed.

Lemma row_get_set_eq c v r : row_get c (row_set c v r) = v.
Proof. unfold row_get, row_set. cbn [cells]. by rewrite lookup_insert_eq. Qed.

Lemma row_get_set_ne c c' v r : c ≠ c' → row_get c' (row_set c v r) = row_get c' r.
Proof.
  intros Hne. unfold row_get, row_set. cbn [cells].
  by rewrite lookup_insert_ne.
Qed.

Lemma rows_non_excluded df :
  rows (non_excluded df) = List.filter (λ r, negb (excluded r)) (rows df).
Proof.
  unfold non_excluded, getitem_mask, invert, isin, getitem_column.
  cbn [rows]. rewrite !map_map. apply mask_select_filter.
Qed.

Lemma bea_region_labels_eq df :
  bea_region_labels df = map label_of (rows (non_excluded df)).
Proof.
  unfold bea_region_labels, Series_map, getitem_column, copy. cbn [rows].
  by rewrite map_map.
Qed.

Lemma rows_classified df :
  rows (classified df)
  = map (λ r, row_set "bea_region" (label_of r) r) (rows (non_excluded df)).
Proof.
  unfold classified, setitem_column. cbn [rows]. rewrite bea_region_labels_eq.
  unfold copy. cbn [rows]. apply assign_cells_map.
Qed.

Lemma bea_region_classified df :
  getitem_column "bea_region" (classified df) = bea_region_labels df.
Proof.
  unfold getitem_column. rewrite rows_classified, map_map, bea_region_labels_eq.
  apply map_ext. intros r. apply row_get_set_eq.
Qed.

Lemma Series_sum_isna (s : list Cell) :
  Nat.eqb (Series_sum (isna s)) 0 = negb (bool_decide (NA ∈ s)).
Proof.
  unfold Series_sum, isna. induction s as [|c s IH]; [done|].
  cbn [map List.filter]. destruct c; cbn [isna_cell notna negb length].
  - rewrite bool_decide_eq_true_2; [done|left].
  - rewrite IH. f_equal. apply bool_decide_ext. rewrite elem_of_cons. by intuition.
  - rewrite IH. f_equal. apply bool_decide_ext. rewrite elem_of_cons. by intuition.
Qed.

Lemma bad_classified df :
  loc_mask_column (isna (getitem_column "bea_region" (classified df)))
                  "STUSPS" (classified df)
  = unmapped_ids df.
Proof.
  unfold loc_mask_column, unmapped_ids, isna.
  rewrite bea_region_classified, rows_classified, bea_region_labels_eq.
  rewrite map_map, mask_select_map, map_map.
  unfold getitem_column. rewrite filter_map_comm.
  apply map_ext. intros r. by apply row_get_set_ne.
Qed.

Lemma bea_region_in_classified df : "bea_region" ∈ columns (classified df).
Proof.
  unfold classified, setitem_column. cbn [columns].
  case_bool_decide as Hin; [exact Hin|].
  apply elem_of_app. right. apply list_elem_of_singleton. reflexivity.
Qed.

Lemma members_classified df k :
  map geometry (members "bea_region" k (rows (classified df)))
  = map geometry (group_of k (rows (non_excluded df))).
Proof.
  unfold members, group_of. rewrite rows_classified, filter_map_comm, map_map.
  cbn [row_set geometry]. f_equal. apply filter_ext. intros r.
  by rewrite row_get_set_eq.
Qed.

Lemma data_columns_no_geometry by_ gname cols :
  "geometry" ∉ data_columns by_ gname cols.
Proof.
  unfold data_columns. intros Hin.
  apply list_elem_of_In, filter_In in Hin as [_ Hin].
  rewrite (bool_decide_eq_true_2 ("geometry" = "geometry")) in Hin by done.
  by rewrite andb_false_r in Hin.
Qed.

Lemma data_cells_no_geometry by_ gname cols (f : string → Cell) :
  (list_to_map (map (λ c, (c, f c)) (data_columns by_ gname cols))
     : gmap string Cell) !! "geometry" = None.
Proof.
  apply not_elem_of_list_to_map_1. intros Hin.
  apply list_elem_of_fmap in Hin as ([c v] & Hc & Hin). cbn in Hc. subst c.
  apply list_elem_of_In, in_map_iff in Hin as (c & Hc & Hin).
  injection Hc as -> _.
  by apply list_elem_of_In, data_columns_no_geometry in Hin.
Qed.

Lemma region_cells (k : Cell) (m : gmap string Cell) :
  m !! "geometry" = None →
  filter (λ kv : string * Cell, kv.1 ∈ ["bea_region"; "geometry"])
         (<["bea_region" := k]> m)
  = {[ "bea_region" := k ]}.
Proof.
  intros Hg. apply map_eq. intros i.
  destruct (decide (i = "bea_region")) as [->|Hne].
  - rewrite lookup_singleton_eq. apply map_lookup_filter_Some. split.
    + apply lookup_insert_eq.
    + cbn. left.
  - rewrite lookup_singleton_ne by done.
    apply map_lookup_filter_None. right. intros v Hv Hin. cbn in Hin.
    rewrite lookup_insert_ne in Hv by done.
    apply elem_of_cons in Hin as [?|Hin]; [done|].
    apply list_elem_of_singleton in Hin. subst i. congruence.
Qed.

(** The result in closed form: which error, or which frame. *)
Lemma regions_of_eq df :
  regions_of union_all transform df =
  if bool_decide ("STUSPS" ∈ columns df) then
    if bool_decide (NA ∈ bea_region_labels df) then
      inl (ValueError (MissingBEARegion (unmapped_ids df)))
    else if bool_decide (geometry_name df ∈ columns (classified df)) then
      match crs df with
      | None => inl (ValueError NaiveGeometries)
      | Some src =>
          if bool_decide (geometry_name df = "geometry") then
            inr {| columns := ["bea_region"; "geometry"];
                   geometry_name := "geometry";
                   rows := map (region_row union_all transform src
                                  (rows (non_excluded df)))
                               (group_keys (bea_region_labels df));
                   crs := Some (EPSG 4326) |}
          else inl (KeyError geometry_not_in_index)
      end
    else inl (AttributeError (geometry_name df))
  else inl (KeyError expected_STUSPS).
Proof.
  unfold regions_of. destruct (bool_decide ("STUSPS" ∈ columns df)); [|done].
  cbv zeta. rewrite bad_classified, bea_region_classified, Series_sum_isna.
  destruct (bool_decide (NA ∈ bea_region_labels df)); cbv [negb]; [done|].
  unfold dissolve.
  replace (geometry_name (classified df)) with (geometry_name df)
    by reflexivity.
  destruct (bool_decide (geometry_name df ∈ columns (classified df)));
    [|done].
  rewrite (bool_decide_eq_true_2 _ (bea_region_in_classified df)).
  cbv zeta. rewrite bea_region_classified.
  unfold to_crs. cbn [crs columns rows geometry_name].
  replace (crs (classified df)) with (crs df) by reflexivity.
  destruct (crs df) as [src|]; [|done].
  unfold getitem_columns. cbn [crs columns rows geometry_name List.filter].
  rewrite (bool_decide_eq_true_2 ("bea_region" ∈ _)) by left.
  cbv [negb].
  destruct (decide (geometry_name df = "geometry")) as [Hg|Hg].
  - rewrite (bool_decide_eq_true_2 (geometry_name df = "geometry")) by done.
    rewrite (bool_decide_eq_true_2 ("geometry" ∈ _)).
    2: { rewrite Hg. right. left. }
    rewrite Hg. f_equal. f_equal. rewrite !map_map.
    apply map_ext. intros k. unfold dissolve_row, region_row.
    cbn [cells geometry]. rewrite members_classified. f_equal.
    apply region_cells, data_cells_no_geometry.
  - rewrite (bool_decide_eq_false_2 (geometry_name df = "geometry")) by done.
    rewrite (bool_decide_eq_false_2 ("geometry" ∈ _)); [done|].
    intros [?|[?|Hin]%elem_of_cons]%elem_of_cons; [done|by apply Hg|].
    by apply data_columns_no_geometry in Hin.
Qed.

Lemma elem_of_bea_region_labels df k :
  k ∈ bea_region_labels df
  ↔ ∃ r, r ∈ rows df ∧ excluded r = false ∧ label_of r = k.
Proof.
  rewrite bea_region_labels_eq, rows_non_excluded, list_elem_of_In, in_map_iff.
  split.
  - intros (r & <- & Hin). apply filter_In in Hin as [Hin He].
    exists r. rewrite list_elem_of_In. split; [done|].
    split; [by apply negb_true_iff|done].
  - intros (r & Hin & He & <-). exists r. split; [done|].
    apply filter_In. rewrite <- list_elem_of_In. by rewrite He.
Qed.

Lemma row_get_region_row src rs k :
  row_get "bea_region" (region_row union_all transform src rs k) = k.
Proof.
  unfold row_get, region_row. cbn [cells]. by rewrite lookup_singleton_eq.
Qed.

Lemma region_labels src rs ks :
  map (row_get "bea_region") (map (region_row union_all transform src rs) ks)
  = ks.
Proof.
  rewrite map_map. rewrite <- (map_id ks) at 2. apply map_ext. intros k.
  apply row_get_region_row.
Qed.

Lemma filter_idem {A} (f : A → bool) (xs : list A) :
  List.filter f (List.filter f xs) = List.filter f xs.
Proof.
  induction xs as [|a xs IH]; [done|]. cbn [List.filter].
  destruct (f a) eqn:E; [|done]. cbn [List.filter]. by rewrite E, IH.
Qed.

Lemma non_excluded_idem df : non_excluded (non_excluded df) = non_excluded df.
Proof.
  transitivity (mkFrame (columns df) (geometry_name df)
                        (rows (non_excluded (non_excluded df))) (crs df));
    [reflexivity|].
  rewrite (rows_non_excluded (non_excluded df)), rows_non_excluded, filter_idem.
  by rewrite <- rows_non_excluded.
Qed.

Lemma regions_of_non_excluded df :
  regions_of union_all transform (non_excluded df)
  = regions_of union_all transform df.
Proof.
  rewrite !regions_of_eq. unfold bea_region_labels, unmapped_ids.
  rewrite non_excluded_idem. reflexivity.
Qed.

Lemma columns_classified df c : c ∈ columns df → c ∈ columns (classified df).
Proof.
  intros Hc. unfold classified, setitem_column. cbn [columns].
  case_bool_decide; [done|]. apply elem_of_app. by left.
Qed.

(** Every successful result has the closed form. *)
Lemma regions_of_inr df out :
  regions_of union_all transform df = inr out →
  "STUSPS" ∈ columns df ∧ (NA ∉ bea_region_labels df) ∧
  (∃ src, crs df = Some src ∧
    out = {| columns := ["bea_region"; "geometry"];
             geometry_name := "geometry";
             rows := map (region_row union_all transform src
                            (rows (non_excluded df)))
                         (group_keys (bea_region_labels df));
             crs := Some (EPSG 4326) |}).
Proof.
  rewrite regions_of_eq. case_bool_decide as Hcol; [|done].
  case_bool_decide as Hna; [done|]. case_bool_decide; [|done].
  destruct (crs df) as [src|]; [|done]. case_bool_decide; [|done].
  intros [= <-]. eauto.
Qed.

Lemma regions_of_inr_geometry df out :
  regions_of union_all transform df = inr out →
  geometry_name df = "geometry".
Proof.
  rewrite regions_of_eq. repeat (case_bool_decide; [|done]).
  case_bool_decide; [done|]. case_bool_decide; [|done].
  destruct (crs df); [|done]. by case_bool_decide.
Qed.

Lemma regions_of_success df src :
  "STUSPS" ∈ columns df → NA ∉ bea_region_labels df → crs df = Some src →
  geometry_name df = "geometry" → "geometry" ∈ columns df →
  regions_of union_all transform df
  = inr {| columns := ["bea_region"; "geometry"];
           geometry_name := "geometry";
           rows := map (region_row union_all transform src
                          (rows (non_excluded df)))
                       (group_keys (bea_region_labels df));
           crs := Some (EPSG 4326) |}.
Proof.
  intros Hcol Hna Hcrs Hg Hgc. rewrite regions_of_eq, Hcrs.
  rewrite (bool_decide_eq_true_2 _ Hcol), (bool_decide_eq_false_2 _ Hna).
  rewrite (bool_decide_eq_true_2 (geometry_name df ∈ _)).
  2: { rewrite Hg. by apply columns_classified. }
  by rewrite (bool_decide_eq_true_2 _ Hg).
Qed.



Lemma regions_of_empty df src :
  "STUSPS" ∈ columns df → crs df = Some src →
  geometry_name df = "geometry" → "geometry" ∈ columns df →
  rows (non_excluded df) = [] →
  regions_of union_all transform df
  = inr {| columns := ["bea_region"; "geometry"];
           geometry_name := "geometry"; rows := [];
           crs := Some (EPSG 4326) |}.
Proof.
  intros Hcol Hcrs Hg Hgc Hrows.
  assert (bea_region_labels df = []) as Hl
    by (by rewrite bea_region_labels_eq, Hrows).
  rewrite (regions_of_success df src Hcol); try done.
  - by rewrite Hl.
  - rewrite Hl. apply not_elem_of_nil.
Qed.

End Pipeline.

(** ** The tables *)


Lemma BEA_MAP_labels_size : size (map_img BEA_MAP : gset string) = 8.
Proof. vm_compute. reflexivity. Qed.


Section Covering.

Context {Geom : Type}.
Implicit Types (df : GeoDataFrame Geom) (r : Row Geom).



End Covering.

(** ** Properties of [build_bea_regions] *)

Section Properties.

Context {Geom : Type}.
Variable union_all : list Geom → Geom.
Variable transform : CRS → CRS → Geom → Geom.

Implicit Types (df out : GeoDataFrame Geom) (r : Row Geom).
Implicit Types (h : gmap loc (GeoDataFrame Geom)) (x l : loc).

(** C1. When the mapping covers every identifier left after the exclusion
    filter, the output has exactly one region per distinct label of the
    classified rows: the labels of the output are pairwise distinct, they
    are exactly the labels line 57 assigned, and there are as many regions
    as distinct labels. *)
Theorem one_region_per_label h x df :
  h !! x = Some df →
  "STUSPS" ∈ columns df →
  NA ∉ bea_region_labels df →
  ∀ out, call_build_bea_regions union_all transform h x = inr out →
    NoDup (getitem_column "bea_region" out)
    ∧ (∀ k, k ∈ getitem_column "bea_region" out ↔ k ∈ bea_region_labels df)
    ∧ length (rows out) = length (remove_dups (bea_region_labels df)).
Proof.
  intros Hx Hcol Hna. rewrite (call_build_bea_regions_eq _ _ _ _ _ Hx).
  intros out Hout.
  apply regions_of_inr in Hout as (_ & _ & src & _ & ->).
  unfold getitem_column. cbn [rows]. rewrite region_labels, length_map.
  split; [apply group_keys_NoDup|]. split.
  - intros k. rewrite elem_of_group_keys. split; [by intros [? _]|].
    intros Hk. split; [done|]. by intros ->.
  - by apply group_keys_length.
Qed.

(** C2. When a row left after the exclusion filter has an identifier that is
    not a key of the mapping, the call raises the error of line 61, whose
    list holds every such identifier (all of them, in row order), and
    returns no frame. *)
Theorem unmapped_identifiers_all_reported h x df :
  h !! x = Some df →
  "STUSPS" ∈ columns df →
  (∃ r, r ∈ rows df ∧ excluded r = false ∧ label_of r = NA) →
  call_build_bea_regions union_all transform h x
  = inl (ValueError (MissingBEARegion (unmapped_ids df)))
  ∧ unmapped_ids df ≠ []
  ∧ ∀ c, c ∈ unmapped_ids df
         ↔ c ∈ getitem_column "STUSPS" (non_excluded df)
           ∧ map_cell BEA_MAP c = NA.
Proof.
  intros Hx Hcol Hbad. apply elem_of_bea_region_labels in Hbad as Hna.
  assert (∀ c, c ∈ unmapped_ids df
               ↔ c ∈ getitem_column "STUSPS" (non_excluded df)
                 ∧ map_cell BEA_MAP c = NA) as Hall.
  { intros c. unfold unmapped_ids.
    rewrite list_elem_of_In, filter_In, <- list_elem_of_In.
    destruct (map_cell BEA_MAP c); cbn [isna_cell notna negb];
      intuition congruence. }
  split; [|split; [|exact Hall]].
  - rewrite (call_build_bea_regions_eq _ _ _ _ _ Hx), regions_of_eq.
    by rewrite (bool_decide_eq_true_2 _ Hcol), (bool_decide_eq_true_2 _ Hna).
  - destruct Hbad as (r & Hin & He & Hl). intros Hnil.
    assert (row_get "STUSPS" r ∈ unmapped_ids df) as Hmem.
    { apply Hall. split; [|exact Hl]. unfold getitem_column.
      rewrite rows_non_excluded. apply list_elem_of_In, in_map, filter_In.
      rewrite <- list_elem_of_In. by rewrite He. }
    rewrite Hnil in Hmem. by apply elem_of_nil in Hmem.
Qed.


(** C4. The rows whose identifier is in the exclusion set are dropped before
    the mapping is looked at: the call gives the same result on the frame
    and on the frame without those rows, and the error of line 61 never
    lists an excluded identifier. *)
Theorem excluded_rows_are_dropped_first h x df h' x' :
  h !! x = Some df →
  h' !! x' = Some (non_excluded df) →
  call_build_bea_regions union_all transform h x
  = call_build_bea_regions union_all transform h' x'
  ∧ ∀ bad,
      call_build_bea_regions union_all transform h x
      = inl (ValueError (MissingBEARegion bad)) →
      ∀ k, k ∈ TERRITORIES → Str k ∉ bad.
Proof.
  intros Hx Hx'. rewrite (call_build_bea_regions_eq _ _ _ _ _ Hx).
  rewrite (call_build_bea_regions_eq _ _ _ _ _ Hx'). split.
  - symmetry. apply regions_of_non_excluded.
  - intros bad. rewrite regions_of_eq.
    case_bool_decide; [|done]. case_bool_decide.
    2: { case_bool_decide; [|done]. destruct (crs df); [|done].
         by case_bool_decide. }
    intros [= <-] k Hk Hin. unfold unmapped_ids in Hin.
    apply list_elem_of_In, filter_In in Hin as [Hin _].
    unfold getitem_column in Hin. rewrite rows_non_excluded in Hin.
    apply in_map_iff in Hin as (r & Hr & Hin).
    apply filter_In in Hin as [_ He]. unfold excluded in He.
    rewrite Hr in He. by rewrite (bool_decide_eq_true_2 _ Hk) in He.
Qed.

(** C7. The call changes no object of the caller's store: whatever was at
    an address before the call (the frame passed in, in particular) is
    there after it, on success and on failure. *)
Theorem input_frame_unchanged h x l df :
  h !! l = Some df →
  (build_bea_regions union_all transform x h).2 !! l = Some df.
Proof.
  intros Hl. destruct (h !! x) as [dx|] eqn:Hx.
  - destruct (build_bea_regions_run union_all transform h x dx Hx)
      as (res & h' & E & Hsub & _).
    rewrite E. cbn [snd]. by apply (lookup_weaken h h').
  - unfold build_bea_regions, bind, deref. rewrite Hx. exact Hl.
Qed.

(** C8. On a frame without a 'STUSPS' column the call raises the KeyError of
    line 54 at once: the store is as it was, nothing has been allocated. *)
Theorem missing_STUSPS_raises_KeyError h x df :
  h !! x = Some df →
  "STUSPS" ∉ columns df →
  build_bea_regions union_all transform x h = (inl (KeyError expected_STUSPS), h).
Proof.
  intros Hx Hcol. unfold build_bea_regions.
  rewrite (bind_deref _ _ _ _ Hx).
  by rewrite (bool_decide_eq_false_2 _ Hcol).
Qed.


(** C6 (amended). On a well-formed frame whose geometry column is labelled
    'geometry', that has the 'STUSPS' column and declares a reference system,
    and that is empty once the excluded rows are dropped (an empty frame in
    particular), the call does not fail: it returns the empty frame with the
    columns 'bea_region' and 'geometry'. *)
Theorem empty_after_filter_gives_empty_output h x df src :
  h !! x = Some df →
  well_formed df →
  geometry_name df = "geometry" →
  "STUSPS" ∈ columns df →
  crs df = Some src →
  rows (non_excluded df) = [] →
  call_build_bea_regions union_all transform h x
  = inr {| columns := ["bea_region"; "geometry"];
           geometry_name := "geometry"; rows := [];
           crs := Some (EPSG 4326) |}.
Proof.
  intros Hx (_ & Hgc & _) Hg Hcol Hcrs Hrows.
  rewrite (call_build_bea_regions_eq _ _ _ _ _ Hx).
  apply regions_of_empty with src; try done. by rewrite <- Hg.
Qed.



End Properties.

(** ** The properties on concrete inputs *)

Ltac evaluate := vm_compute; reflexivity.
Ltac decided := apply (bool_decide_unpack _); vm_compute; exact I.

Lemma one_region_per_label_witness :
  NoDup (getitem_column "bea_region" Grid.northeast_regions)
  ∧ (∀ k, k ∈ getitem_column "bea_region" Grid.northeast_regions
          ↔ k ∈ bea_region_labels Grid.northeast)
  ∧ length (rows Grid.northeast_regions)
    = length (remove_dups (bea_region_labels Grid.northeast)).
Proof.
  apply (one_region_per_label Grid.union_all Grid.transform
           (Grid.store Grid.northeast) 1%positive Grid.northeast).
  - evaluate.
  - decided.
  - decided.
  - evaluate.
Defined.

Lemma unmapped_identifiers_all_reported_witness :
  Grid.call Grid.with_unmapped
  = inl (ValueError (MissingBEARegion [Str "XX"; Str "YY"])).
Proof.
  refine (proj1 (unmapped_identifiers_all_reported Grid.union_all Grid.transform
                   (Grid.store Grid.with_unmapped) 1%positive
                   Grid.with_unmapped _ _ _)).
  - evaluate.
  - decided.
  - exists (Grid.feature "XX" [(5, 5)%Z]). split; [|split].
    + unfold Grid.with_unmapped, Grid.layer. cbn [rows].
      apply list_elem_of_further, list_elem_of_here.
    + evaluate.
    + evaluate.
Defined.


Lemma excluded_rows_are_dropped_first_witness :
  Grid.call Grid.northeast = Grid.call (non_excluded Grid.northeast)
  ∧ ∀ bad, Grid.call Grid.northeast = inl (ValueError (MissingBEARegion bad)) →
      ∀ k, k ∈ TERRITORIES → Str k ∉ bad.
Proof.
  apply (excluded_rows_are_dropped_first Grid.union_all Grid.transform
           (Grid.store Grid.northeast) 1%positive Grid.northeast
           (Grid.store (non_excluded Grid.northeast)) 1%positive).
  - evaluate.
  - evaluate.
Defined.



Lemma empty_after_filter_gives_empty_output_witness :
  Grid.call Grid.territories_only = inr (Grid.regions []).
Proof.
  apply (empty_after_filter_gives_empty_output Grid.union_all Grid.transform
           (Grid.store Grid.territories_only) 1%positive Grid.territories_only
           (EPSG 4269)).
  - evaluate.
  - unfold well_formed. decided.
  - evaluate.
  - decided.
  - evaluate.
  - evaluate.
Defined.

(** C6, as stated, fails: the frame without rows or columns has nothing left
    after the filter and the call raises the KeyError of line 54; the frame
    without rows that declares no reference system has nothing left either
    and the call raises in [to_crs]; the frame without rows whose geometry
    column is labelled 'geom' has nothing left and the call raises the
    KeyError of line 65. *)
Lemma empty_input_can_fail :
  rows Grid.no_columns = []
  ∧ Grid.call Grid.no_columns = inl (KeyError expected_STUSPS)
  ∧ rows (non_excluded Grid.naive_empty) = []
  ∧ Grid.call Grid.naive_empty = inl (ValueError NaiveGeometries)
  ∧ rows (non_excluded Samples.empty_geom) = []
  ∧ Grid.call Samples.empty_geom = inl (KeyError "['geometry'] not in index").
Proof. repeat split; evaluate. Qed.

Lemma input_frame_unchanged_witness :
  (build_bea_regions Grid.union_all Grid.transform 1%positive
     (Grid.store Grid.northeast)).2 !! 1%positive
  = Some Grid.northeast.
Proof.
  apply (input_frame_unchanged Grid.union_all Grid.transform
           (Grid.store Grid.northeast) 1%positive 1%positive Grid.northeast).
  evaluate.
Defined.

Lemma missing_STUSPS_raises_KeyError_witness :
  build_bea_regions Grid.union_all Grid.transform 1%positive
    (Grid.store Grid.no_identifier)
  = (inl (KeyError expected_STUSPS), Grid.store Grid.no_identifier).
Proof.
  apply (missing_STUSPS_raises_KeyError Grid.union_all Grid.transform
           (Grid.store Grid.no_identifier) 1%positive Grid.no_identifier).
  - evaluate.
  - decided.
Defined.



(** ** The order of the group keys *)

Lemma String_leb_iff (a b : string) :
  String.leb a b = true ↔ a = b ∨ OrderedTypeEx.String_as_OT.lt a b.
Proof.
  unfold String.leb.
  destruct (String.compare a b) eqn:E.
  - apply OrderedTypeEx.String_as_OT.cmp_eq in E. by intuition.
  - apply OrderedTypeEx.String_as_OT.cmp_lt in E. by intuition.
  - split; [done|]. intros [->|Hlt].
    + assert (String.compare b b = Eq) as E'
        by (by apply OrderedTypeEx.String_as_OT.cmp_eq).
      congruence.
    + apply OrderedTypeEx.String_as_OT.cmp_lt in Hlt.
      unfold OrderedTypeEx.String_as_OT.cmp in Hlt. congruence.
Qed.

Lemma String_leb_trans (a b c : string) :
  String.leb a b = true → String.leb b c = true → String.leb a c = true.
Proof.
  rewrite !String_leb_iff. intros [->|Hab] [->|Hbc]; auto.
  right. by apply OrderedTypeEx.String_as_OT.lt_trans with b.
Qed.

#[global] Instance cell_le_trans : Transitive cell_le.
Proof.
  intros [|a|a] [|b|b] [|c|c]; unfold cell_le; cbn [cell_leb]; try done.
  - rewrite !Is_true_true. apply String_leb_trans.
  - rewrite !Is_true_true, !Z.leb_le. lia.
Qed.

#[global] Instance cell_le_total : Total cell_le.
Proof.
  intros [|a|a] [|b|b]; unfold cell_le; cbn [cell_leb]; auto.
  - rewrite !Is_true_true. apply String.leb_total.
  - rewrite !Is_true_true, !Z.leb_le. lia.
Qed.

#[global] Instance cell_le_antisym : AntiSymm (=) cell_le.
Proof.
  intros [|a|a] [|b|b]; unfold cell_le; cbn [cell_leb]; try done.
  - rewrite !Is_true_true. intros H1 H2. f_equal. by apply String.leb_antisym.
  - rewrite !Is_true_true, !Z.leb_le. intros. f_equal. lia.
Qed.

Lemma group_keys_sorted (l : list Cell) : StronglySorted cell_le (group_keys l).
Proof. apply StronglySorted_merge_sort; apply _. Qed.

Lemma group_keys_perm (l1 l2 : list Cell) :
  l1 ≡ₚ l2 → group_keys l1 = group_keys l2.
Proof.
  intros Hp. apply (StronglySorted_unique cell_le); try apply group_keys_sorted.
  apply NoDup_Permutation; try apply group_keys_NoDup.
  intros k. rewrite !elem_of_group_keys. by rewrite Hp.
Qed.

(** ** Lists: filters, permutations, partitions *)

Lemma filter_Permutation {A} (f : A → bool) (l1 l2 : list A) :
  l1 ≡ₚ l2 → List.filter f l1 ≡ₚ List.filter f l2.
Proof.
  induction 1 as [|a l1 l2 _ IH|a b l|l1 l2 l3 _ IH1 _ IH2]; cbn [List.filter].
  - done.
  - destruct (f a); by rewrite IH.
  - destruct (f a), (f b); try done. apply perm_swap.
  - by etrans.
Qed.

Lemma map_Permutation {A B} (g : A → B) (l1 l2 : list A) :
  l1 ≡ₚ l2 → map g l1 ≡ₚ map g l2.
Proof. apply Permutation_map. Qed.

Lemma filter_all {A} (f : A → bool) (l : list A) :
  (∀ a, a ∈ l → f a = true) → List.filter f l = l.
Proof.
  induction l as [|a l IH]; [done|]. intros H. cbn [List.filter].
  rewrite (H a) by left. f_equal. apply IH. intros b Hb. apply H. by right.
Qed.

Lemma filter_none {A} (f : A → bool) (l : list A) :
  (∀ a, a ∈ l → f a = false) → List.filter f l = [].
Proof.
  induction l as [|a l IH]; [done|]. intros H. cbn [List.filter].
  rewrite (H a) by left. apply IH. intros b Hb. apply H. by right.
Qed.

(** Filtering on equal keys: the rows may differ in what the key leaves out. *)
Lemma map_filter_key {A1 A2 K B} (key1 : A1 → K) (key2 : A2 → K)
    (f : K → bool) (g : K → B) (l1 : list A1) (l2 : list A2) :
  map key1 l1 = map key2 l2 →
  map (λ a, g (key1 a)) (List.filter (λ a, f (key1 a)) l1)
  = map (λ a, g (key2 a)) (List.filter (λ a, f (key2 a)) l2).
Proof.
  revert l2. induction l1 as [|a1 l1 IH]; intros [|a2 l2] E; try done.
  injection E as E1 E. cbn [List.filter]. rewrite E1.
  destruct (f (key2 a2)); cbn [map]; rewrite ?E1; by rewrite (IH l2 E).
Qed.

Lemma Str_names (ks : list Cell) :
  (∀ k, k ∈ ks → ∃ s, k = Str s) → ∃ names, ks = map Str names.
Proof.
  induction ks as [|k ks IH]; intros H; [by exists []|].
  destruct (H k) as [s ->]; [left|].
  destruct IH as [names ->]; [intros k' Hk'; apply H; by right|].
  by exists (s :: names).
Qed.

Lemma String_ltb_iff (a b : string) :
  String.ltb a b = true ↔ String.leb a b = true ∧ a ≠ b.
Proof.
  unfold String.ltb, String.leb. destruct (String.compare a b) eqn:E.
  - apply String.compare_eq_iff in E. by intuition.
  - split; [|done]. intros _. split; [done|]. intros ->.
    assert (String.compare b b = Eq)
      by (by apply OrderedTypeEx.String_as_OT.cmp_eq).
    congruence.
  - by intuition.
Qed.

Lemma Str_names_sorted (names : list string) :
  StronglySorted cell_le (map Str names) → NoDup (map Str names) →
  StronglySorted (λ a b, String.ltb a b = true) names.
Proof.
  induction names as [|a names IH]; cbn [map]; intros Hs Hn; [constructor|].
  apply StronglySorted_inv in Hs as [Hs Ha]. apply NoDup_cons in Hn as [Hna Hn].
  constructor; [by apply IH|]. apply Forall_forall. intros b Hb.
  apply String_ltb_iff. split.
  - rewrite Forall_forall in Ha. apply Is_true_true, (Ha (Str b)).
    apply list_elem_of_In, in_map, list_elem_of_In, Hb.
  - intros ->. apply Hna. apply list_elem_of_In, in_map, list_elem_of_In, Hb.
Qed.

(** ** More about the pipeline *)

Section PipelineFacts.

Context {Geom : Type}.
Variable union_all : list Geom → Geom.
Variable transform : CRS → CRS → Geom → Geom.

Implicit Types (df out : GeoDataFrame Geom) (r : Row Geom).
Implicit Types (h : gmap loc (GeoDataFrame Geom)) (x l : loc).

Lemma all_mapped_iff df :
  NA ∉ bea_region_labels df
  ↔ ∀ r, r ∈ rows df → excluded r = false → label_of r ≠ NA.
Proof.
  rewrite elem_of_bea_region_labels. split.
  - intros H r Hr He Hl. apply H. eauto.
  - intros H (r & Hr & He & Hl). by apply (H r).
Qed.

Lemma label_of_cases r :
  label_of r = NA
  ∨ ∃ k v, row_get "STUSPS" r = Str k ∧ BEA_MAP !! k = Some v
           ∧ label_of r = Str v.
Proof.
  unfold label_of, map_cell. destruct (row_get "STUSPS" r) as [|k|]; auto.
  destruct (BEA_MAP !! k) as [v|] eqn:E; eauto 6.
Qed.

Lemma group_keys_are_names df k :
  k ∈ group_keys (bea_region_labels df) →
  ∃ v, k = Str v ∧ v ∈ (map_img BEA_MAP : gset string).
Proof.
  rewrite elem_of_group_keys. intros [Hk Hne].
  apply elem_of_bea_region_labels in Hk as (r & _ & _ & Hl).
  destruct (label_of_cases r) as [E|(i & v & _ & Hi & E)]; [congruence|].
  exists v. split; [congruence|]. apply elem_of_map_img. eauto.
Qed.

Lemma group_keys_length_le (ls : list Cell) :
  (length (group_keys ls) ≤ length ls)%nat.
Proof.
  apply submseteq_length, NoDup_submseteq; [apply group_keys_NoDup|].
  intros k Hk. by apply elem_of_group_keys in Hk as [? _].
Qed.

Lemma split_group k ks (rs : list (Row Geom)) :
  k ∉ ks →
  List.filter (λ r, bool_decide (label_of r ∈ k :: ks)) rs
  ≡ₚ group_of k rs ++ List.filter (λ r, bool_decide (label_of r ∈ ks)) rs.
Proof.
  intros Hk. unfold group_of. induction rs as [|r rs IH]; [done|].
  cbn [List.filter]. destruct (decide (label_of r = k)) as [E|E].
  - rewrite (bool_decide_eq_true_2 (label_of r = k)) by done.
    rewrite (bool_decide_eq_true_2 (label_of r ∈ k :: ks)) by (rewrite E; left).
    rewrite (bool_decide_eq_false_2 (label_of r ∈ ks)) by (by rewrite E).
    cbn [app]. by rewrite IH.
  - rewrite (bool_decide_eq_false_2 (label_of r = k)) by done.
    destruct (decide (label_of r ∈ ks)) as [Hin|Hin].
    + rewrite (bool_decide_eq_true_2 (label_of r ∈ k :: ks)) by (by right).
      rewrite (bool_decide_eq_true_2 (label_of r ∈ ks)) by done.
      rewrite IH. apply Permutation_middle.
    + rewrite (bool_decide_eq_false_2 (label_of r ∈ k :: ks)).
      2: { intros [?|?]%elem_of_cons; done. }
      by rewrite (bool_decide_eq_false_2 (label_of r ∈ ks)) by done.
Qed.

Lemma groups_partition ks (rs : list (Row Geom)) :
  NoDup ks →
  concat (map (λ k, group_of k rs) ks)
  ≡ₚ List.filter (λ r, bool_decide (label_of r ∈ ks)) rs.
Proof.
  induction 1 as [|k ks Hk _ IH]; cbn [map concat].
  - symmetry. rewrite filter_none; [done|]. intros r _.
    apply bool_decide_eq_false_2, not_elem_of_nil.
  - by rewrite IH, split_group.
Qed.

Lemma build_bea_regions_fresh h x df l h' :
  h !! x = Some df →
  build_bea_regions union_all transform x h = (inr l, h') →
  h !! l = None.
Proof.
  intros Hx. unfold build_bea_regions.
  rewrite (bind_deref _ _ _ _ Hx).
  destruct (bool_decide ("STUSPS" ∈ columns df)); cbv [negb]; [|done].
  rewrite bind_new. fold (non_excluded df).
  set (h1 := <[fresh (dom h) := non_excluded df]> h).
  assert (h ⊆ h1) as H01 by apply new_extends.
  rewrite (bind_deref h1 _ (non_excluded df)); [|apply lookup_insert_eq].
  rewrite bind_new.
  set (l2 := fresh (dom h1)).
  rewrite (bind_deref _ l2 (copy (non_excluded df))); [|apply lookup_insert_eq].
  rewrite (bind_mutate _ l2 (copy (non_excluded df))); [|apply lookup_insert_eq].
  rewrite insert_insert_eq. fold (bea_region_labels df). fold (classified df).
  set (h2 := <[l2 := classified df]> h1).
  assert (h ⊆ h2) as H02 by (etrans; [exact H01|apply new_extends]).
  assert (h2 !! l2 = Some (classified df)) as H2 by apply lookup_insert_eq.
  clearbody h2 l2. clear H01 h1.
  rewrite (bind_deref h2 l2 (classified df) _ H2).
  destruct (Nat.eqb _ 0); cbv [negb]; [|done].
  destruct (dissolve union_all "bea_region" (classified df)) as [e|d]; [done|].
  unfold lift at 1. unfold bind at 1, ret at 1. rewrite bind_new.
  set (l3 := fresh (dom h2)). set (h3 := <[l3 := d]> h2).
  assert (h ⊆ h3) as H03 by (etrans; [exact H02|apply new_extends]).
  rewrite (bind_deref h3 l3 d); [|apply lookup_insert_eq].
  clearbody h3 l3. clear H02 H2 h2.
  destruct (to_crs transform (EPSG 4326) d) as [e|p]; [done|].
  unfold lift at 1. unfold bind at 1, ret at 1. rewrite bind_new.
  set (l4 := fresh (dom h3)). set (h4 := <[l4 := p]> h3).
  assert (h ⊆ h4) as H04 by (etrans; [exact H03|apply new_extends]).
  rewrite (bind_deref h4 l4 p); [|apply lookup_insert_eq].
  clearbody h4 l4. clear H03 h3.
  destruct (getitem_columns ["bea_region"; "geometry"] p) as [e|out]; [done|].
  unfold lift, bind, ret, new. intros [= <- _].
  destruct (h !! fresh (dom h4)) as [d'|] eqn:E; [|done].
  exfalso. apply (is_fresh (dom h4)), elem_of_dom.
  exists d'. by apply (lookup_weaken h h4).
Qed.

Lemma regions_of_in_columns df out :
  regions_of union_all transform df = inr out →
  "geometry" ∈ columns df.
Proof.
  intros Hout. pose proof (regions_of_inr_geometry _ _ _ _ Hout) as Hg.
  revert Hout. rewrite regions_of_eq.
  case_bool_decide as Hcol; [|done]. case_bool_decide; [done|].
  case_bool_decide as Hgc; [|done]. intros _.
  rewrite Hg in Hgc. unfold classified, setitem_column in Hgc.
  cbn [columns] in Hgc. case_bool_decide; [done|].
  apply elem_of_app in Hgc as [?|Hgc]; [done|].
  by apply list_elem_of_singleton in Hgc.
Qed.

Lemma regions_of_inr_iff df :
  well_formed df →
  (∃ out, regions_of union_all transform df = inr out)
  ↔ "STUSPS" ∈ columns df
    ∧ (∀ r, r ∈ rows df → excluded r = false → label_of r ≠ NA)
    ∧ is_Some (crs df)
    ∧ geometry_name df = "geometry".
Proof.
  intros (_ & Hgc & _). rewrite <- all_mapped_iff. split.
  - intros [out Hout]. pose proof (regions_of_inr_geometry _ _ _ _ Hout).
    apply regions_of_inr in Hout as (Hcol & Hna & src & Hsrc & _). eauto.
  - intros (Hcol & Hna & [src Hsrc] & Hg).
    rewrite (regions_of_success _ _ _ _ Hcol Hna Hsrc Hg); [eauto|].
    by rewrite <- Hg.
Qed.

End PipelineFacts.

(** ** Further properties of [build_bea_regions] *)

Section MoreProperties.

Context {Geom : Type}.
Variable union_all : list Geom → Geom.
Variable transform : CRS → CRS → Geom → Geom.

Implicit Types (df out : GeoDataFrame Geom) (r : Row Geom).
Implicit Types (h : gmap loc (GeoDataFrame Geom)) (x l : loc).

(** X1. On a well-formed frame, the call returns a frame exactly when the
    frame has the 'STUSPS' column, every row that is not excluded has a
    mapped identifier, a reference system is declared, and the geometry
    column is labelled 'geometry'. *)
Theorem build_succeeds_iff h x df :
  h !! x = Some df →
  well_formed df →
  (∃ out, call_build_bea_regions union_all transform h x = inr out)
  ↔ "STUSPS" ∈ columns df
    ∧ (∀ r, r ∈ rows df → excluded r = false → label_of r ≠ NA)
    ∧ is_Some (crs df)
    ∧ geometry_name df = "geometry".
Proof.
  intros Hx Hwf. rewrite (call_build_bea_regions_eq _ _ _ _ _ Hx).
  by apply regions_of_inr_iff.
Qed.

(** X2. Which exception a failing call raises on a well-formed frame, in
    the order of the checks: the KeyError of line 54 exactly when the
    'STUSPS' column is missing; the ValueError of line 61 exactly when the
    column is there and some row that is not excluded is unmapped (whether or
    not a reference system is declared); the ValueError of [to_crs] exactly
    when the column is there, every such row is mapped and no reference
    system is declared; the KeyError of line 65 exactly when all of that
    passes and the geometry column is not labelled 'geometry'. *)
Theorem build_failure_cases h x df :
  h !! x = Some df →
  well_formed df →
  (∀ msg, call_build_bea_regions union_all transform h x = inl (KeyError msg)
          ↔ (("STUSPS" ∉ columns df) ∧ msg = expected_STUSPS)
            ∨ ("STUSPS" ∈ columns df
               ∧ (∀ r, r ∈ rows df → excluded r = false → label_of r ≠ NA)
               ∧ is_Some (crs df)
               ∧ geometry_name df ≠ "geometry"
               ∧ msg = "['geometry'] not in index"))
  ∧ (∀ bad, call_build_bea_regions union_all transform h x
            = inl (ValueError (MissingBEARegion bad))
            ↔ "STUSPS" ∈ columns df
              ∧ (∃ r, r ∈ rows df ∧ excluded r = false ∧ label_of r = NA)
              ∧ bad = unmapped_ids df)
  ∧ (call_build_bea_regions union_all transform h x
     = inl (ValueError NaiveGeometries)
     ↔ "STUSPS" ∈ columns df
       ∧ (∀ r, r ∈ rows df → excluded r = false → label_of r ≠ NA)
       ∧ crs df = None).
Proof.
  intros Hx (_ & Hgc & _).
  rewrite (call_build_bea_regions_eq _ _ _ _ _ Hx), regions_of_eq.
  pose proof (all_mapped_iff df) as Hall.
  pose proof (elem_of_bea_region_labels df NA) as Hex.
  rewrite (bool_decide_eq_true_2 (geometry_name df ∈ columns (classified df)))
    by (by apply columns_classified).
  change geometry_not_in_index with "['geometry'] not in index".
  case_bool_decide as Hcol; [case_bool_decide as Hna|].
  - split; [|split].
    + intros msg. split; [done|]. intros [[? _]|(_ & Hm & _)]; [done|].
      by apply Hall in Hm.
    + intros bad. split; [intros [= <-]; by intuition|]. by intros (_ & _ & ->).
    + split; [done|]. intros (_ & Hm & _). by apply Hall in Hm.
  - destruct (crs df) as [src|]; [case_bool_decide as Hg|];
      (split; [|split]).
    + intros msg. split; [done|].
      intros [[? _]|(_ & _ & _ & ? & _)]; done.
    + intros bad. split; [done|]. intros (_ & Hm & _). by apply Hex in Hm.
    + split; [done|]. by intros (_ & _ & ?).
    + intros msg. split.
      * intros [= <-]. right. rewrite Hall in Hna. by eauto 10.
      * intros [[? _]|(_ & _ & _ & _ & ->)]; done.
    + intros bad. split; [done|]. intros (_ & Hm & _). by apply Hex in Hm.
    + split; [done|]. by intros (_ & _ & ?).
    + intros msg. split; [done|].
      intros [[? _]|(_ & _ & [? ?] & _)]; done.
    + intros bad. split; [done|]. intros (_ & Hm & _). by apply Hex in Hm.
    + split; [|done]. intros _. by intuition.
  - split; [|split].
    + intros msg. split; [intros [= <-]; by left|].
      intros [[_ ->]|(? & _)]; done.
    + intros bad. split; [done|]. by intros (? & _).
    + split; [done|]. by intros (? & _).
Qed.

(** X3. The regions come out sorted: the labels of the output are strings,
    in strictly increasing (byte-wise) order of the region names. *)
Theorem output_sorted_by_region_name h x df out :
  h !! x = Some df →
  call_build_bea_regions union_all transform h x = inr out →
  ∃ names, getitem_column "bea_region" out = map Str names
    ∧ StronglySorted (λ a b, String.ltb a b = true) names.
Proof.
  intros Hx. rewrite (call_build_bea_regions_eq _ _ _ _ _ Hx). intros Hout.
  apply regions_of_inr in Hout as (_ & _ & src & _ & ->).
  unfold getitem_column. cbn [rows]. rewrite region_labels.
  destruct (Str_names (group_keys (bea_region_labels df))) as [names E].
  { intros k Hk. apply group_keys_are_names in Hk as (v & -> & _). eauto. }
  exists names. split; [done|]. apply Str_names_sorted; rewrite <- E.
  - apply group_keys_sorted.
  - apply group_keys_NoDup.
Qed.

(** X4. The order of the input rows does not matter to the labels: on two
    frames with the same columns, the same geometry column and the same
    reference system whose rows are a permutation of one another, a
    successful call on the first means a successful call on the second, with
    the same labels in the same order, and every group unions the same
    geometries up to their order. *)
Theorem row_order_is_irrelevant h1 x1 df1 h2 x2 df2 out1 :
  h1 !! x1 = Some df1 →
  h2 !! x2 = Some df2 →
  columns df1 = columns df2 →
  geometry_name df1 = geometry_name df2 →
  crs df1 = crs df2 →
  rows df1 ≡ₚ rows df2 →
  call_build_bea_regions union_all transform h1 x1 = inr out1 →
  ∃ out2, call_build_bea_regions union_all transform h2 x2 = inr out2
    ∧ getitem_column "bea_region" out1 = getitem_column "bea_region" out2
    ∧ ∀ k, map geometry (group_of k (rows (non_excluded df1)))
           ≡ₚ map geometry (group_of k (rows (non_excluded df2))).
Proof.
  intros Hx1 Hx2 Ecol Egeo Ecrs Hperm.
  rewrite (call_build_bea_regions_eq _ _ _ _ _ Hx1).
  rewrite (call_build_bea_regions_eq _ _ _ _ _ Hx2). intros Hout.
  pose proof (regions_of_inr_geometry _ _ _ _ Hout) as Hg.
  pose proof (regions_of_in_columns _ _ _ _ Hout) as Hgc.
  apply regions_of_inr in Hout as (Hcol & Hna & src & Hsrc & ->).
  assert (rows (non_excluded df1) ≡ₚ rows (non_excluded df2)) as Hne
    by (rewrite !rows_non_excluded; by apply filter_Permutation).
  assert (bea_region_labels df1 ≡ₚ bea_region_labels df2) as Hl
    by (rewrite !bea_region_labels_eq; by apply map_Permutation).
  rewrite Ecol in Hcol, Hgc. rewrite Ecrs in Hsrc. rewrite Hl in Hna.
  rewrite Egeo in Hg.
  rewrite (regions_of_success _ _ _ _ Hcol Hna Hsrc Hg Hgc).
  eexists. split; [reflexivity|]. split.
  - unfold getitem_column. cbn [rows]. rewrite !region_labels.
    by apply group_keys_perm.
  - intros k. unfold group_of. by apply map_Permutation, filter_Permutation.
Qed.

(** X5. The groups partition the rows left after the exclusion filter: put
    end to end, the groups of the output regions are a permutation of those
    rows.  Every row that is not excluded enters exactly one union; an
    excluded row enters none. *)
Theorem groups_partition_the_kept_rows h x df out :
  h !! x = Some df →
  call_build_bea_regions union_all transform h x = inr out →
  concat (map (λ r, group_of (row_get "bea_region" r) (rows (non_excluded df)))
              (rows out))
  ≡ₚ rows (non_excluded df).
Proof.
  intros Hx. rewrite (call_build_bea_regions_eq _ _ _ _ _ Hx). intros Hout.
  apply regions_of_inr in Hout as (_ & Hna & src & _ & ->). cbn [rows].
  rewrite map_map.
  rewrite (map_ext _ (λ k, group_of k (rows (non_excluded df))))
    by (intros k; by rewrite row_get_region_row).
  rewrite groups_partition by apply group_keys_NoDup.
  rewrite filter_all; [done|]. intros r Hr.
  apply bool_decide_eq_true_2, elem_of_group_keys.
  assert (label_of r ∈ bea_region_labels df) as Hin.
  { rewrite bea_region_labels_eq. by apply list_elem_of_In, in_map, list_elem_of_In. }
  split; [done|]. intros E. by rewrite E in Hin.
Qed.

(** X6. Whatever the input, the output never has more than 8 regions, and
    every label is one of the region names of [BEA_MAP]. *)
Theorem at_most_eight_regions h x df out :
  h !! x = Some df →
  call_build_bea_regions union_all transform h x = inr out →
  (length (rows out) ≤ 8)%nat
  ∧ ∀ r, r ∈ rows out →
      ∃ v, row_get "bea_region" r = Str v
           ∧ v ∈ (map_img BEA_MAP : gset string).
Proof.
  intros Hx. rewrite (call_build_bea_regions_eq _ _ _ _ _ Hx). intros Hout.
  apply regions_of_inr in Hout as (_ & _ & src & _ & ->). cbn [rows]. split.
  - rewrite length_map, <- BEA_MAP_labels_size.
    change (size (map_img BEA_MAP : gset string))
      with (length (elements (map_img BEA_MAP : gset string))).
    rewrite <- (length_fmap Str).
    apply submseteq_length, NoDup_submseteq; [apply group_keys_NoDup|].
    intros k Hk. apply group_keys_are_names in Hk as (v & -> & Hv).
    apply list_elem_of_fmap. exists v. split; [done|]. by apply elem_of_elements.
  - intros r Hr. apply list_elem_of_In, in_map_iff in Hr as (k & <- & Hk).
    rewrite row_get_region_row. apply (group_keys_are_names df).
    by apply list_elem_of_In.
Qed.

(** X7. The frame returned is a new object: its address was not in use in
    the caller's store, so it is not the frame passed in nor any other frame
    the caller holds. *)
Theorem result_is_a_new_object h x df l h' :
  h !! x = Some df →
  build_bea_regions union_all transform x h = (inr l, h') →
  h !! l = None ∧ l ≠ x ∧ is_Some (h' !! l).
Proof.
  intros Hx Hrun.
  assert (h !! l = None) as Hl by (by eapply build_bea_regions_fresh).
  split; [done|]. split; [intros ->; congruence|].
  destruct (build_bea_regions_run union_all transform h x df Hx)
    as (res & h'' & E & _ & Hres).
  rewrite Hrun in E. injection E as <- <-.
  destruct (regions_of union_all transform df) as [e|out]; [done|].
  destruct Hres as (l' & [= <-] & Hout). eauto.
Qed.

(** X8. The output is empty exactly when no row is left after the exclusion
    filter, and it never has more regions than there are such rows. *)
Theorem output_empty_iff_nothing_kept h x df out :
  h !! x = Some df →
  call_build_bea_regions union_all transform h x = inr out →
  (rows out = [] ↔ rows (non_excluded df) = [])
  ∧ (length (rows out) ≤ length (rows (non_excluded df)))%nat.
Proof.
  intros Hx. rewrite (call_build_bea_regions_eq _ _ _ _ _ Hx). intros Hout.
  apply regions_of_inr in Hout as (_ & Hna & src & _ & ->). cbn [rows].
  split.
  - rewrite bea_region_labels_eq in *. split.
    + intros E. destruct (rows (non_excluded df)) as [|r rs]; [done|].
      exfalso. cbn [map] in *.
      assert (label_of r ∈ group_keys (label_of r :: map label_of rs)) as Hin.
      { apply elem_of_group_keys. split; [left|].
        intros E'. apply Hna. rewrite E'. left. }
      apply (f_equal length) in E. rewrite length_map in E.
      destruct (group_keys _); [by apply elem_of_nil in Hin|done].
    + by intros ->.
  - rewrite length_map.
    etrans; [apply group_keys_length_le|].
    by rewrite bea_region_labels_eq, length_map.
Qed.

(** X9. Only the identifier and the geometry of a row matter: two
    well-formed frames with the same geometry column that both have the
    'STUSPS' column, declare the same reference system and agree row by row
    on identifier and geometry give the same result, frame or exception,
    whatever their other columns hold (a 'bea_region' column already there
    included). *)
Theorem only_identifier_and_geometry_matter h1 x1 df1 h2 x2 df2 :
  h1 !! x1 = Some df1 →
  h2 !! x2 = Some df2 →
  well_formed df1 →
  well_formed df2 →
  geometry_name df1 = geometry_name df2 →
  "STUSPS" ∈ columns df1 →
  "STUSPS" ∈ columns df2 →
  crs df1 = crs df2 →
  map (λ r, (row_get "STUSPS" r, geometry r)) (rows df1)
  = map (λ r, (row_get "STUSPS" r, geometry r)) (rows df2) →
  call_build_bea_regions union_all transform h1 x1
  = call_build_bea_regions union_all transform h2 x2.
Proof.
  intros Hx1 Hx2 (_ & Hg1 & _) (_ & Hg2 & _) Egeo Hc1 Hc2 Ecrs E.
  rewrite (call_build_bea_regions_eq _ _ _ _ _ Hx1).
  rewrite (call_build_bea_regions_eq _ _ _ _ _ Hx2).
  set (key := λ r : Row Geom, (row_get "STUSPS" r, geometry r)) in E.
  set (keep := λ c : Cell, negb match c with
                                | Str k => bool_decide (k ∈ TERRITORIES)
                                | _ => false
                                end).
  assert (∀ B (g : Cell * Geom → B),
            map (λ r, g (key r)) (rows (non_excluded df1))
            = map (λ r, g (key r)) (rows (non_excluded df2))) as Hmap.
  { intros B g. rewrite !rows_non_excluded.
    apply (map_filter_key key key (λ p, keep p.1) g _ _ E). }
  assert (bea_region_labels df1 = bea_region_labels df2) as El.
  { rewrite !bea_region_labels_eq. apply (Hmap _ (λ p, map_cell BEA_MAP p.1)). }
  assert (unmapped_ids df1 = unmapped_ids df2) as Eb.
  { unfold unmapped_ids, getitem_column. f_equal. apply (Hmap _ fst). }
  rewrite !regions_of_eq, Ecrs, El, Eb.
  rewrite (bool_decide_eq_true_2 _ Hc1), (bool_decide_eq_true_2 _ Hc2).
  rewrite (bool_decide_eq_true_2 (geometry_name df1 ∈ columns (classified df1)))
    by (by apply columns_classified).
  rewrite (bool_decide_eq_true_2 (geometry_name df2 ∈ columns (classified df2)))
    by (by apply columns_classified).
  rewrite Egeo.
  case_bool_decide; [done|]. destruct (crs df2) as [src|]; [|done].
  case_bool_decide; [|done].
  do 2 f_equal. apply map_ext. intros k. unfold region_row. do 3 f_equal.
  pose proof (map_filter_key key key
                (λ p : Cell * Geom, bool_decide (map_cell BEA_MAP p.1 = k)) snd
                _ _ (Hmap _ id)) as Hk.
  exact Hk.
Qed.

(** X10. A row whose identifier is missing or is not a string is not
    dropped: with the column present, the call fails with the ValueError of
    line 61, and that identifier is in the list it reports. *)
Theorem missing_identifier_is_reported h x df r :
  h !! x = Some df →
  "STUSPS" ∈ columns df →
  r ∈ rows df →
  (∀ k, row_get "STUSPS" r ≠ Str k) →
  call_build_bea_regions union_all transform h x
  = inl (ValueError (MissingBEARegion (unmapped_ids df)))
  ∧ row_get "STUSPS" r ∈ unmapped_ids df.
Proof.
  intros Hx Hcol Hr Hid.
  assert (excluded r = false ∧ label_of r = NA) as [He Hl].
  { unfold excluded, label_of, map_cell.
    destruct (row_get "STUSPS" r) as [|k|]; [done| |done]. by destruct (Hid k). }
  split.
  - rewrite (call_build_bea_regions_eq _ _ _ _ _ Hx), regions_of_eq.
    rewrite (bool_decide_eq_true_2 _ Hcol), bool_decide_eq_true_2; [done|].
    apply elem_of_bea_region_labels. eauto.
  - unfold unmapped_ids. apply list_elem_of_In, filter_In. split.
    + unfold getitem_column. rewrite rows_non_excluded.
      apply in_map, filter_In. rewrite <- list_elem_of_In. by rewrite He.
    + fold (label_of r). by rewrite Hl.
Qed.

(** X11. A well-formed layer whose geometry column is labelled 'geometry'
    and whose identifiers are all keys of [BEA_MAP] or elements of
    [TERRITORIES] is always accepted: with the 'STUSPS' column present and a
    reference system declared, the call returns a frame. *)
Theorem known_identifiers_are_accepted h x df :
  h !! x = Some df →
  well_formed df →
  geometry_name df = "geometry" →
  "STUSPS" ∈ columns df →
  is_Some (crs df) →
  (∀ r, r ∈ rows df →
        ∃ k, row_get "STUSPS" r = Str k
             ∧ (k ∈ dom BEA_MAP ∨ k ∈ TERRITORIES)) →
  ∃ out, call_build_bea_regions union_all transform h x = inr out.
Proof.
  intros Hx Hwf Hg Hcol Hcrs Hids.
  rewrite (call_build_bea_regions_eq _ _ _ _ _ Hx).
  apply regions_of_inr_iff; [done|].
  split; [done|]. split; [|done]. intros r Hr He.
  destruct (Hids r Hr) as (k & Hk & [Hdom|Hterr]).
  - apply elem_of_dom in Hdom as [v Hv].
    unfold label_of. rewrite Hk. cbn [map_cell]. by rewrite Hv.
  - unfold excluded in He. rewrite Hk in He.
    by rewrite (bool_decide_eq_true_2 _ Hterr) in He.
Qed.

End MoreProperties.

(** ** The script *)

Lemma list_ascii_of_string_app (a b : string) :
  String.list_ascii_of_string (a ++ b)
  = (String.list_ascii_of_string a ++ String.list_ascii_of_string b)%list.
Proof.
  induction a as [|c a IH]; [done|].
  change (String c a ++ b) with (String c (a ++ b)).
  cbn [String.list_ascii_of_string]. by rewrite IH.
Qed.

Lemma endswith_spec (s suffix : string) :
  endswith s suffix = true ↔ ∃ stem, s = stem ++ suffix.
Proof.
  unfold endswith. rewrite bool_decide_eq_true. split.
  - intros [k Hk]. exists (String.string_of_list_ascii k).
    rewrite <- (String.string_of_list_ascii_of_string s).
    rewrite <- (String.string_of_list_ascii_of_string (_ ++ suffix)).
    f_equal.
    by rewrite list_ascii_of_string_app,
         String.list_ascii_of_string_of_list_ascii.
  - intros [stem ->]. exists (String.list_ascii_of_string stem).
    apply list_ascii_of_string_app.
Qed.

Lemma filter_first {A} (f : A → bool) (l : list A) (a : A) (rest : list A) :
  List.filter f l = a :: rest →
  ∃ before after, l = (before ++ a :: after)%list
    ∧ (∀ b, b ∈ before → f b = false) ∧ f a = true.
Proof.
  induction l as [|b l IH]; [done|]. cbn [List.filter].
  destruct (f b) eqn:E.
  - intros [= -> _]. exists [], l. split; [done|]. split; [|done].
    intros b Hb. by apply elem_of_nil in Hb.
  - intros Hl. destruct (IH Hl) as (before & after & -> & Hb & Ha).
    exists (b :: before), after. split; [done|]. split; [|done].
    intros c [->|Hc]%elem_of_cons; auto.
Qed.

Section ScriptFacts.

Context {Geom Bytes Archive Dir LibError : Type}.
Variable union_all : list Geom → Geom.
Variable transform : CRS → CRS → Geom → Geom.

Implicit Types (w : @World Geom Bytes Archive Dir LibError).
Implicit Types (args : Namespace).

(** The run of [download_states], case by case. *)
Lemma download_states_eq w year scale :
  download_states w year scale
  = let url := zip_url year scale in
    let sent := [Stderr ("Downloading " ++ url ++ " ..."); HttpGet url 60] in
    match requests_get w url 60 with
    | inl e => (sent, inl (LibraryError e))
    | inr resp =>
        if (400 <=? status_code resp)%Z && (status_code resp <? 600)%Z
        then (sent, inl (HTTPError (status_code resp)))
        else
          match ZipFile w (content resp) with
          | inl e => (sent, inl (LibraryError e))
          | inr zf =>
              match List.filter (λ n, endswith n ".shp") (namelist w zf) with
              | [] => (sent, inl StopIteration)
              | name :: _ =>
                  match extractall w zf with
                  | inl e => ((sent ++ [Extract])%list, inl (LibraryError e))
                  | inr td =>
                      ((sent ++ [Extract; ReadFile name])%list,
                       match read_file w td name with
                       | inl e => inl (LibraryError e)
                       | inr gdf => inr gdf
                       end)
                  end
              end
          end
    end.
Proof.
  unfold download_states. cbv zeta.
  unfold sbind at 1, emit at 1.
  unfold sbind at 1, perform at 1.
  destruct (requests_get w (zip_url year scale) 60) as [e|resp]; [done|].
  unfold sbind at 1, raise_for_status.
  destruct ((400 <=? status_code resp)%Z && (status_code resp <? 600)%Z);
    [done|].
  unfold sret at 1. unfold sbind at 1, library at 1.
  destruct (ZipFile w (content resp)) as [e|zf]; [done|].
  unfold sbind at 1, next.
  destruct (List.filter _ (namelist w zf)) as [|name names]; [done|].
  unfold sret at 1. unfold sbind at 1, perform at 1.
  destruct (extractall w zf) as [e|td]; [done|].
  unfold sbind, perform, sret.
  by destruct (read_file w td name).
Qed.


Lemma download_states_one_request w year scale :
  ∃ rest, (download_states w year scale).1
          = Stderr ("Downloading " ++ zip_url year scale ++ " ...")
            :: HttpGet (zip_url year scale) 60 :: rest
    ∧ ∀ url timeout, HttpGet url timeout ∉ rest.
Proof.
  rewrite download_states_eq. cbv zeta.
  repeat (case_match; cbn [fst app]); eexists; (split; [reflexivity|]);
    intros url timeout; rewrite ?elem_of_cons, ?elem_of_nil; by intuition.
Qed.

(** The run of [main] after a successful download. *)
Lemma main_eq w args :
  main union_all transform w args
  = match download_states w (year args) (scale args) with
    | (t, inl e) => (t, inl e)
    | (t, inr states) =>
        match call_build_bea_regions union_all transform
                {[ 1%positive := states ]} 1%positive with
        | inl e => (t, inl (PipelineError e))
        | inr bea =>
            match to_file w bea (output args) "GeoJSON" with
            | Some e =>
                ((t ++ [ToFile (output args) "GeoJSON" bea])%list,
                 inl (LibraryError e))
            | None =>
                ((t ++ [ToFile (output args) "GeoJSON" bea;
                        Stderr ("Wrote " ++ output args ++ " with "
                                ++ pretty (length (rows bea)) ++ " features.")])%list,
                 inr tt)
            end
        end
    end.
Proof.
  unfold main. unfold sbind at 1.
  destruct (download_states w (year args) (scale args)) as [t [e|states]];
    [done|].
  destruct (call_build_bea_regions _ _ _ _) as [e|bea].
  - unfold sbind, sraise. by rewrite app_nil_r.
  - unfold sret, sbind, perform, emit. cbn [app].
    by destruct (to_file w bea (output args) "GeoJSON").
Qed.

End ScriptFacts.

(** ** Properties of [download_states] and [main] *)

Section ScriptProperties.

Context {Geom Bytes Archive Dir LibError : Type}.
Variable union_all : list Geom → Geom.
Variable transform : CRS → CRS → Geom → Geom.

Implicit Types (w : @World Geom Bytes Archive Dir LibError).
Implicit Types (args : Namespace).

(** X12. When the server answers with a status from 400 to 599,
    [download_states] raises HTTPError with that status right after the
    request: the body is not opened as an archive, nothing is extracted or
    read. *)
Theorem http_error_stops_the_download w year scale resp :
  requests_get w (zip_url year scale) 60 = inr resp →
  (400 ≤ status_code resp < 600)%Z →
  download_states w year scale
  = ([ Stderr ("Downloading " ++ zip_url year scale ++ " ...");
       HttpGet (zip_url year scale) 60 ],
     inl (HTTPError (status_code resp))).
Proof.
  intros Hget [Hlo Hhi]. rewrite download_states_eq. cbv zeta. rewrite Hget.
  apply Z.leb_le in Hlo. apply Z.ltb_lt in Hhi. by rewrite Hlo, Hhi.
Qed.

(** X13. When no member of the archive has a name ending in ".shp",
    [download_states] raises StopIteration, and nothing is extracted or
    read. *)
Theorem no_shapefile_raises_StopIteration w year scale resp zf :
  requests_get w (zip_url year scale) 60 = inr resp →
  ¬ (400 ≤ status_code resp < 600)%Z →
  ZipFile w (content resp) = inr zf →
  (∀ n, n ∈ namelist w zf → ¬ ∃ stem, n = stem ++ ".shp") →
  download_states w year scale
  = ([ Stderr ("Downloading " ++ zip_url year scale ++ " ...");
       HttpGet (zip_url year scale) 60 ],
     inl StopIteration).
Proof.
  intros Hget Hstatus Hzip Hnames. rewrite download_states_eq. cbv zeta.
  rewrite Hget, Hzip.
  destruct ((400 <=? status_code resp)%Z && (status_code resp <? 600)%Z) eqn:E.
  { apply andb_true_iff in E as [?%Z.leb_le ?%Z.ltb_lt]. by destruct Hstatus. }
  rewrite filter_none; [done|]. intros n Hn.
  destruct (endswith n ".shp") eqn:En; [|done].
  apply endswith_spec in En. by destruct (Hnames n Hn).
Qed.

(** X14. When [download_states] returns a frame, it is the frame read from the
    first member of the archive, in archive order, whose name ends in ".shp":
    no member before it has such a name, and that member is the only file
    read. *)
Theorem first_shapefile_is_read w year scale gdf :
  (download_states w year scale).2 = inr gdf →
  ∃ resp zf td (before : list string) (stem : string) (after : list string),
    requests_get w (zip_url year scale) 60 = inr resp
    ∧ ZipFile w (content resp) = inr zf
    ∧ namelist w zf = (before ++ (stem ++ ".shp")%string :: after)%list
    ∧ (∀ n, n ∈ before → ¬ ∃ stem', n = stem' ++ ".shp")
    ∧ extractall w zf = inr td
    ∧ read_file w td (stem ++ ".shp") = inr gdf
    ∧ (download_states w year scale).1
      = [ Stderr ("Downloading " ++ zip_url year scale ++ " ...");
          HttpGet (zip_url year scale) 60;
          Extract; ReadFile (stem ++ ".shp") ].
Proof.
  rewrite download_states_eq. cbv zeta.
  destruct (requests_get w (zip_url year scale) 60) as [e|resp] eqn:Eg;
    [done|].
  destruct ((400 <=? status_code resp)%Z && (status_code resp <? 600)%Z);
    [done|].
  destruct (ZipFile w (content resp)) as [e|zf] eqn:Ez; [done|].
  destruct (List.filter _ (namelist w zf)) as [|name names] eqn:Ef; [done|].
  destruct (extractall w zf) as [e|td] eqn:Ex; [done|].
  destruct (read_file w td name) as [e|gdf'] eqn:Er; [done|].
  cbn [fst snd app]. intros [= ->].
  apply filter_first in Ef as (before & after & Hn & Hb & Ha).
  apply endswith_spec in Ha as [stem ->].
  exists resp, zf, td, before, stem, after.
  split; [done|]. split; [done|]. split; [done|]. split; [|done].
  intros n Hn' Hs. apply endswith_spec in Hs. by rewrite (Hb n Hn') in Hs.
Qed.


(** X16. When [main] ends without an exception, the layer was downloaded,
    the pipeline returned a frame of at most 8 regions in EPSG:4326, that
    frame was written once to [args.output] in GeoJSON, and the last line on
    stderr reports the path and the number of regions written. *)
Theorem main_success_report w args :
  (main union_all transform w args).2 = inr tt →
  ∃ states bea,
    (download_states w (year args) (scale args)).2 = inr states
    ∧ (∀ h x, h !! x = Some states →
         call_build_bea_regions union_all transform h x = inr bea)
    ∧ to_file w bea (output args) "GeoJSON" = None
    ∧ (main union_all transform w args).1
      = ((download_states w (year args) (scale args)).1
         ++ [ ToFile (output args) "GeoJSON" bea;
              Stderr ("Wrote " ++ output args ++ " with "
                      ++ pretty (length (rows bea)) ++ " features.") ])%list
    ∧ (length (rows bea) ≤ 8)%nat
    ∧ crs bea = Some (EPSG 4326).
Proof.
  rewrite main_eq.
  destruct (download_states w (year args) (scale args)) as [t [e|states]];
    cbn [fst snd]; [done|].
  destruct (call_build_bea_regions _ _ _ _) as [e|bea] eqn:Ecall;
    cbn [snd]; [done|].
  destruct (to_file w bea (output args) "GeoJSON") eqn:Ew; cbn [fst snd];
    [done|].
  intros _. exists states, bea. split; [done|].
  assert (regions_of union_all transform states = inr bea) as Hreg.
  { rewrite <- Ecall. symmetry. apply call_build_bea_regions_eq.
    apply lookup_singleton_eq. }
  split.
  { intros h x Hx. by rewrite (call_build_bea_regions_eq _ _ _ _ _ Hx). }
  split; [done|]. split; [done|].
  destruct (regions_of_inr _ _ _ _ Hreg) as (_ & _ & src & _ & ->).
  cbn [rows crs]. split; [|done].
  rewrite length_map, <- BEA_MAP_labels_size.
  change (size (map_img BEA_MAP : gset string))
    with (length (elements (map_img BEA_MAP : gset string))).
  rewrite <- (length_fmap Str).
  apply submseteq_length, NoDup_submseteq; [apply group_keys_NoDup|].
  intros k Hk. apply group_keys_are_names in Hk as (v & -> & Hv).
  apply list_elem_of_fmap. exists v. split; [done|]. by apply elem_of_elements.
Qed.

(** X17. Whatever the world answers, [main] sends exactly one request: the
    trace starts with the line announcing the download and the GET of the
    URL built from [args.year] and [args.scale], with a timeout of 60, and
    holds no other request. *)
Theorem main_sends_one_request w args :
  ∃ rest,
    (main union_all transform w args).1
    = Stderr ("Downloading " ++ zip_url (year args) (scale args) ++ " ...")
      :: HttpGet (zip_url (year args) (scale args)) 60 :: rest
    ∧ ∀ url timeout, HttpGet url timeout ∉ rest.
Proof.
  rewrite main_eq.
  destruct (download_states_one_request w (year args) (scale args))
    as (rest & Ht & Hrest).
  destruct (download_states w (year args) (scale args)) as [t [e|states]];
    cbn [fst] in *; subst t.
  { by exists rest. }
  destruct (call_build_bea_regions _ _ _ _) as [e|bea]; cbn [fst].
  { by exists rest. }
  destruct (to_file w bea (output args) "GeoJSON"); cbn [fst app];
    eexists; (split; [reflexivity|]); intros url timeout;
    rewrite elem_of_app, ?elem_of_cons, ?elem_of_nil;
    intros [?|?]; [by eapply Hrest|by intuition|by eapply Hrest|by intuition].
Qed.

End ScriptProperties.

(** ** The further properties on concrete inputs *)

Lemma build_succeeds_iff_witness :
  (∃ out, Grid.call Grid.northeast = inr out)
  ↔ "STUSPS" ∈ columns Grid.northeast
    ∧ (∀ r, r ∈ rows Grid.northeast → excluded r = false → label_of r ≠ NA)
    ∧ is_Some (crs Grid.northeast)
    ∧ geometry_name Grid.northeast = "geometry".
Proof.
  apply (build_succeeds_iff Grid.union_all Grid.transform
           (Grid.store Grid.northeast) 1%positive Grid.northeast).
  - evaluate.
  - unfold well_formed. decided.
Defined.

Lemma build_failure_cases_witness :
  Grid.call Samples.new_york_geom = inl (KeyError "['geometry'] not in index").
Proof.
  refine (proj2 (proj1 (build_failure_cases Grid.union_all Grid.transform
                   (Grid.store Samples.new_york_geom) 1%positive
                   Samples.new_york_geom _ _) "['geometry'] not in index") _).
  - evaluate.
  - unfold well_formed. decided.
  - right. split; [decided|]. split; [|split; [|split]].
    + unfold Samples.new_york_geom. cbn [rows]. intros r Hr _.
      apply list_elem_of_singleton in Hr. subst r. vm_compute. discriminate.
    + by exists (EPSG 4269).
    + vm_compute. discriminate.
    + reflexivity.
Defined.

Lemma output_sorted_by_region_name_witness :
  ∃ names, getitem_column "bea_region" Grid.northeast_regions = map Str names
    ∧ StronglySorted (λ a b, String.ltb a b = true) names.
Proof.
  apply (output_sorted_by_region_name Grid.union_all Grid.transform
           (Grid.store Grid.northeast) 1%positive Grid.northeast).
  - evaluate.
  - evaluate.
Defined.

Lemma row_order_is_irrelevant_witness :
  ∃ out2, Grid.call Samples.northeast_shuffled = inr out2
    ∧ getitem_column "bea_region" Grid.northeast_regions
      = getitem_column "bea_region" out2
    ∧ ∀ k, map geometry (group_of k (rows (non_excluded Grid.northeast)))
           ≡ₚ map geometry
                (group_of k (rows (non_excluded Samples.northeast_shuffled))).
Proof.
  apply (row_order_is_irrelevant Grid.union_all Grid.transform
           (Grid.store Grid.northeast) 1%positive Grid.northeast
           (Grid.store Samples.northeast_shuffled) 1%positive
           Samples.northeast_shuffled).
  - evaluate.
  - evaluate.
  - evaluate.
  - evaluate.
  - evaluate.
  - change (rows Samples.northeast_shuffled)
      with (reverse (rows Grid.northeast)).
    symmetry. apply reverse_Permutation.
  - evaluate.
Defined.

Lemma groups_partition_the_kept_rows_witness :
  concat (map (λ r, group_of (row_get "bea_region" r)
                             (rows (non_excluded Grid.northeast)))
              (rows Grid.northeast_regions))
  ≡ₚ rows (non_excluded Grid.northeast).
Proof.
  apply (groups_partition_the_kept_rows Grid.union_all Grid.transform
           (Grid.store Grid.northeast) 1%positive).
  - evaluate.
  - evaluate.
Defined.

Lemma at_most_eight_regions_witness :
  (length (rows Grid.northeast_regions) ≤ 8)%nat
  ∧ ∀ r, r ∈ rows Grid.northeast_regions →
      ∃ v, row_get "bea_region" r = Str v
           ∧ v ∈ (map_img BEA_MAP : gset string).
Proof.
  apply (at_most_eight_regions Grid.union_all Grid.transform
           (Grid.store Grid.northeast) 1%positive Grid.northeast).
  - evaluate.
  - evaluate.
Defined.

Lemma result_is_a_new_object_witness :
  Grid.store Grid.northeast !! 6%positive = None
  ∧ 6%positive ≠ 1%positive
  ∧ is_Some ((build_bea_regions Grid.union_all Grid.transform 1%positive
                (Grid.store Grid.northeast)).2 !! 6%positive).
Proof.
  apply (result_is_a_new_object Grid.union_all Grid.transform
           (Grid.store Grid.northeast) 1%positive Grid.northeast).
  - evaluate.
  - evaluate.
Defined.

Lemma output_empty_iff_nothing_kept_witness :
  (rows (Grid.regions []) = [] ↔ rows (non_excluded Grid.territories_only) = [])
  ∧ (length (rows (Grid.regions []))
     ≤ length (rows (non_excluded Grid.territories_only)))%nat.
Proof.
  apply (output_empty_iff_nothing_kept Grid.union_all Grid.transform
           (Grid.store Grid.territories_only) 1%positive).
  - evaluate.
  - evaluate.
Defined.

Lemma only_identifier_and_geometry_matter_witness :
  Grid.call Grid.northeast = Grid.call Samples.northeast_bare.
Proof.
  apply (only_identifier_and_geometry_matter Grid.union_all Grid.transform
           (Grid.store Grid.northeast) 1%positive Grid.northeast
           (Grid.store Samples.northeast_bare) 1%positive
           Samples.northeast_bare).
  - evaluate.
  - evaluate.
  - unfold well_formed. decided.
  - unfold well_formed. decided.
  - evaluate.
  - decided.
  - decided.
  - evaluate.
  - evaluate.
Defined.

Lemma missing_identifier_is_reported_witness :
  Grid.call Samples.with_anonymous
  = inl (ValueError (MissingBEARegion (unmapped_ids Samples.with_anonymous)))
  ∧ NA ∈ unmapped_ids Samples.with_anonymous.
Proof.
  apply (missing_identifier_is_reported Grid.union_all Grid.transform
           (Grid.store Samples.with_anonymous) 1%positive
           Samples.with_anonymous (Samples.anonymous [(3, 3)%Z])).
  - evaluate.
  - decided.
  - unfold Samples.with_anonymous, Grid.layer. cbn [rows].
    apply list_elem_of_further, list_elem_of_here.
  - intros k. vm_compute. discriminate.
Defined.

Lemma known_identifiers_are_accepted_witness :
  ∃ out, Grid.call Grid.northeast = inr out.
Proof.
  apply (known_identifiers_are_accepted Grid.union_all Grid.transform
           (Grid.store Grid.northeast) 1%positive Grid.northeast).
  - evaluate.
  - unfold well_formed. decided.
  - evaluate.
  - decided.
  - by exists (EPSG 4269).
  - unfold Grid.northeast, Grid.layer. cbn [rows]. intros r Hr.
    repeat (apply elem_of_cons in Hr as [->|Hr]).
    + exists "NY". split; [evaluate|decided].
    + exists "PR". split; [evaluate|decided].
    + exists "CT". split; [evaluate|decided].
    + exists "NJ". split; [evaluate|decided].
    + by apply elem_of_nil in Hr.
Defined.

Lemma http_error_stops_the_download_witness :
  download_states Samples.census 1999 "5m"
  = ([ Stderr ("Downloading " ++ zip_url 1999 "5m" ++ " ...");
       HttpGet (zip_url 1999 "5m") 60 ],
     inl (HTTPError 404)).
Proof.
  apply (http_error_stops_the_download Samples.census 1999 "5m"
           (mkResponse 404 "Not Found")).
  - evaluate.
  - cbn [status_code]. lia.
Defined.

Lemma no_shapefile_raises_StopIteration_witness :
  download_states Samples.census_no_shapefile 2022 "20m"
  = ([ Stderr ("Downloading " ++ zip_url 2022 "20m" ++ " ...");
       HttpGet (zip_url 2022 "20m") 60 ],
     inl StopIteration).
Proof.
  apply (no_shapefile_raises_StopIteration Samples.census_no_shapefile
           2022 "20m" (mkResponse 200 "PK:states")
           [ ("README.txt", "see www.census.gov");
             ("cb_2022_us_state_20m.shp.iso.xml", "<xml/>") ]).
  - evaluate.
  - cbn [status_code]. lia.
  - evaluate.
  - cbn [namelist Samples.census_no_shapefile map fst]. intros n Hn Hs.
    apply endswith_spec in Hs.
    repeat (apply elem_of_cons in Hn as [->|Hn]);
      [by vm_compute in Hs..|by apply elem_of_nil in Hn].
Defined.

Lemma first_shapefile_is_read_witness :
  ∃ resp zf td (before : list string) (stem : string) (after : list string),
    requests_get Samples.census (zip_url 2022 "20m") 60 = inr resp
    ∧ ZipFile Samples.census (content resp) = inr zf
    ∧ namelist Samples.census zf
      = (before ++ (stem ++ ".shp")%string :: after)%list
    ∧ (∀ n, n ∈ before → ¬ ∃ stem', n = stem' ++ ".shp")
    ∧ extractall Samples.census zf = inr td
    ∧ read_file Samples.census td (stem ++ ".shp") = inr Grid.northeast
    ∧ (download_states Samples.census 2022 "20m").1
      = [ Stderr ("Downloading " ++ zip_url 2022 "20m" ++ " ...");
          HttpGet (zip_url 2022 "20m") 60;
          Extract; ReadFile (stem ++ ".shp") ].
Proof.
  apply (first_shapefile_is_read Samples.census 2022 "20m" Grid.northeast).
  evaluate.
Defined.


Lemma main_success_report_witness :
  ∃ states bea,
    (download_states Samples.census (year Samples.default_args)
       (scale Samples.default_args)).2 = inr states
    ∧ (∀ h x, h !! x = Some states →
         call_build_bea_regions Grid.union_all Grid.transform h x = inr bea)
    ∧ to_file Samples.census bea (output Samples.default_args) "GeoJSON" = None
    ∧ (main Grid.union_all Grid.transform Samples.census Samples.default_args).1
      = ((download_states Samples.census (year Samples.default_args)
            (scale Samples.default_args)).1
         ++ [ ToFile (output Samples.default_args) "GeoJSON" bea;
              Stderr ("Wrote " ++ output Samples.default_args ++ " with "
                      ++ pretty (length (rows bea)) ++ " features.") ])%list
    ∧ (length (rows bea) ≤ 8)%nat
    ∧ crs bea = Some (EPSG 4326).
Proof.
  apply (main_success_report Grid.union_all Grid.transform
           Samples.census Samples.default_args).
  evaluate.
Defined.
